(** * clients/APIClient.go: the REST/JSON client of microapp

    A shallow embedding of [APIClient] and of its operations
    ([DoRequestWithResponseParam], [doRequest], [DoGet], [DoGetList],
    [DoPost], [DoDelete]), together with the parts of [encoding/json],
    [net/http] and [io/ioutil] that the operations call, and the
    properties of the client's specification.

    Conventions.
    - A Go [string] and a [[]byte] are Rocq [string]s (sequences of bytes).
    - A Go [int] status code is a [Z].
    - A value of static type [interface{}] is a [GoValue]; a
      [map[string]interface{}] is a [gmap string GoValue].
    - A Go function returning [(T, error)] returns a [Result T]; a function
      returning only [error] returns a [Result unit].
    - The observable effects of one call (request construction, the network
      exchange, reads of the response body, its closing) are recorded, in
      order, in a trace of [Event]s. *)

From stdpp Require Import gmap strings list.
From Stdlib Require Import ZArith NArith Ascii String.

Local Set Warnings "-register-all".
Local Open Scope string_scope.
Local Open Scope Z_scope.

(** ** Errors *)

(** Go [error] values.  [Errorf_w format err] is [fmt.Errorf(format, err)]
    for a format ending in the verb [%w], which wraps [err]; [Errorf_v format n]
    is [fmt.Errorf(format, n)] for a format ending in [%v] and an integer
    argument.  [APICallError] is the structured error of the package
    [microapp/error]. *)
Inductive GoError : Type :=
| errors_New (text : string)
| Errorf_w (format : string) (err : GoError)
| Errorf_v (format : string) (n : Z)
| io_EOF
| io_ErrUnexpectedEOF
| json_SyntaxError
| json_UnmarshalTypeError
| json_UnsupportedTypeError
| json_UnsupportedValueError
| json_InvalidUnmarshalError
| http_InvalidMethod (method : string)
| OtherError (text : string)
| APICallError (url : string) (status : option Z) (body : option string)
               (cause : GoError).

Inductive Result (A : Type) : Type :=
| Ok (a : A)
| Err (e : GoError).
Arguments Ok {A} a.
Arguments Err {A} e.

(** Modelled from the spec: [NewAPICallError] of the package
    [github.com/islax/microapp/error] is imported by the client and is not
    part of its file.  The specification describes it as a factory that,
    given the url, an optional status code, an optional body text and a
    cause, produces an error object carrying all four; the two optional
    arguments are Go pointers, [nil] being [None]. *)
Definition NewAPICallError (url : string) (status : option Z)
    (body : option string) (cause : GoError) : GoError :=
  APICallError url status body cause.

(** ** Dynamic values *)

(** A [float64] is kept as a decimal literal that denotes it; binary
    rounding and the formatting of numbers are outside the model. *)
Inductive float64 : Type :=
| Finite (literal : string)
| NaN
| Inf (negative : bool).

(** The values an [interface{}] holds.  The first six are the ones the JSON
    decoder produces.  [VOther enc] stands for a value of any other dynamic
    type (a struct, an [int], a channel, a [map[string]string], ...): such
    a value is never a [[]interface{}] or a [map[string]interface{}], and
    all the client can do with it is hand it to [json.Marshal], whose
    outcome on it is [enc]. *)
Inductive GoValue : Type :=
| VNil
| VBool (b : bool)
| VFloat64 (f : float64)
| VString (s : string)
| VSlice (l : list GoValue)
| VMap (m : gmap string GoValue)
| VOther (enc : Result string).

(** A Go slice of maps is either [nil] or a backing sequence. *)
Definition Slice (A : Type) : Type := option (list A).

(** [append(s, x)] *)
Definition append {A : Type} (s : Slice A) (x : A) : Slice A :=
  match s with
  | None => Some [x]
  | Some l => Some (l ++ [x])%list
  end.

(** The type assertions [v.(map[string]interface{})] and
    [v.([]interface{})] in their two-result form. *)
Definition assert_map (v : GoValue) : option (gmap string GoValue) :=
  match v with
  | VMap m => Some m
  | _ => None
  end.

Definition assert_slice (v : GoValue) : option (list GoValue) :=
  match v with
  | VSlice l => Some l
  | _ => None
  end.

(** ** encoding/json *)

Module json.

(** *** Marshal *)

(** The double quote. *)
Definition dquote : ascii := ascii_of_N 34.

Definition hex_digit (n : N) : ascii :=
  ascii_of_N (if (n <? 10)%N then 48 + n else 87 + n).

(** [\u00XX] for the byte [c] *)
Definition escape_u00 (c : ascii) : string :=
  let n := N_of_ascii c in
  String "\" (String "u" (String "0" (String "0"
    (String (hex_digit (n / 16)) (String (hex_digit (n mod 16)) ""))))).

(** One byte of a string inside a JSON string literal, with the default
    HTML-safe escaping.  Bytes from 128 up are copied: the payload strings
    are taken to be valid UTF-8 without U+2028 and U+2029. *)
Definition escape_byte (c : ascii) : string :=
  let n := N_of_ascii c in
  if (n =? 34)%N then String "\" (String dquote "")
  else if (n =? 92)%N then "\\"
  else if (n =? 10)%N then "\n"
  else if (n =? 13)%N then "\r"
  else if (n =? 9)%N then "\t"
  else if ((n <? 32) || (n =? 60) || (n =? 62) || (n =? 38))%N then escape_u00 c
  else String c "".

Fixpoint escape_string (s : string) : string :=
  match s with
  | "" => ""
  | String c s' => escape_byte c ++ escape_string s'
  end.

Definition quote (s : string) : string :=
  String dquote (escape_string s ++ String dquote "").

(** The members of an object are written in the byte order of their keys. *)
Fixpoint insert_member {A : Type} (kv : string * A) (l : list (string * A))
    : list (string * A) :=
  match l with
  | [] => [kv]
  | kv' :: l' =>
      if String.leb (fst kv) (fst kv') then kv :: l
      else kv' :: insert_member kv l'
  end.

Definition sort_members {A : Type} (l : list (string * A)) : list (string * A) :=
  foldr insert_member [] l.

Fixpoint join (sep : string) (l : list string) : string :=
  match l with
  | [] => ""
  | [x] => x
  | x :: l' => x ++ sep ++ join sep l'
  end.

(** All the encodings, or the first error. *)
Fixpoint sequence {A : Type} (l : list (Result A)) : Result (list A) :=
  match l with
  | [] => Ok []
  | Ok a :: l' =>
      match sequence l' with
      | Ok r => Ok (a :: r)
      | Err e => Err e
      end
  | Err e :: _ => Err e
  end.

Definition encode_member (kv : string * Result string) : Result string :=
  match snd kv with
  | Ok t => Ok (quote (fst kv) ++ ":" ++ t)
  | Err e => Err e
  end.

Fixpoint encode (v : GoValue) : Result string :=
  match v with
  | VNil => Ok "null"
  | VBool true => Ok "true"
  | VBool false => Ok "false"
  | VFloat64 (Finite literal) => Ok literal
  | VFloat64 _ => Err json_UnsupportedValueError
  | VString s => Ok (quote s)
  | VSlice l =>
      match sequence (map encode l) with
      | Ok ts => Ok ("[" ++ join "," ts ++ "]")
      | Err e => Err e
      end
  | VMap m =>
      match sequence (map encode_member
                        (sort_members (map_to_list (encode <$> m)))) with
      | Ok ts => Ok ("{" ++ join "," ts ++ "}")
      | Err e => Err e
      end
  | VOther enc => enc
  end.

(** [json.Marshal(payload)] for a non-nil [map[string]interface{}] *)
Definition Marshal (payload : gmap string GoValue) : Result string :=
  encode (VMap payload).

(** *** Decoder

    [NewDecoder(r).Decode(&v)] reads the first JSON value of the stream [r]
    and stops there: what follows the value is not looked at.  The text is
    cut into tokens by an automaton that reads one byte at a time, and the
    tokens are assembled with a stack of open arrays and objects. *)

Inductive token : Type :=
| TLBrace | TRBrace | TLBracket | TRBracket | TColon | TComma
| TSpace
| TLiteral (v : GoValue)
| TString (s : string)
| TNumber (literal : string) (in_range : bool)
| TBad                    (* a byte that no token allows *)
| TCutString              (* the text ends inside a string *)
| TCutValue.              (* the text ends inside a number or a literal *)

(** The states of a number: after the sign, after a leading zero, inside
    the integer digits, after the point, inside the fraction, after the
    exponent mark, after the exponent sign, inside the exponent. *)
Inductive numstate : Type :=
| NNeg | NZero | NInt | NDot | NFrac | NExp | NExpSign | NExpDigits.

(** What has been read of a number: its text (latest byte first), the
    digits of integer part and fraction as one natural number, how many
    there are, how many of them follow the point, and the exponent. *)
Record number : Type := mkNumber {
  num_text : list ascii;
  num_mantissa : Z;
  num_digits : Z;
  num_fraction : Z;
  num_exp_negative : bool;
  num_exp : Z
}.

Inductive lexstate : Type :=
| LStart
| LWord (rest : string) (v : GoValue)
| LNumber (st : numstate) (n : number)
| LString (acc : list ascii) (high : option Z)
| LEscape (acc : list ascii) (high : option Z)
| LHex (acc : list ascii) (high : option Z) (count : nat) (code : Z)
| LDead.

Definition byte (n : Z) : ascii := ascii_of_N (Z.to_N n).
Definition code (c : ascii) : Z := Z.of_N (N_of_ascii c).

Definition is_space (c : ascii) : bool :=
  let n := code c in (n =? 32) || (n =? 9) || (n =? 13) || (n =? 10).

Definition digit_value (c : ascii) : option Z :=
  let n := code c in
  if (48 <=? n) && (n <=? 57) then Some (n - 48) else None.

Definition hex_value (c : ascii) : option Z :=
  let n := code c in
  if (48 <=? n) && (n <=? 57) then Some (n - 48)
  else if (97 <=? n) && (n <=? 102) then Some (n - 87)
  else if (65 <=? n) && (n <=? 70) then Some (n - 55)
  else None.

(** The UTF-8 encoding of a code point, latest byte first. *)
Definition utf8_rev (r : Z) : list ascii :=
  if r <? 128 then [byte r]
  else if r <? 2048 then
    [byte (128 + r mod 64); byte (192 + r / 64)]
  else if r <? 65536 then
    [byte (128 + r mod 64); byte (128 + (r / 64) mod 64); byte (224 + r / 4096)]
  else
    [byte (128 + r mod 64); byte (128 + (r / 64) mod 64);
     byte (128 + (r / 4096) mod 64); byte (240 + r / 262144)].

Definition replacement : list ascii := utf8_rev 65533.

(** A pending first half of a surrogate pair that got no second half
    becomes U+FFFD. *)
Definition flush (acc : list ascii) (high : option Z) : list ascii :=
  match high with
  | Some _ => (replacement ++ acc)%list
  | None => acc
  end.

Definition text_of (acc : list ascii) : string :=
  string_of_list_ascii (rev acc).

(** A decimal literal is out of range when it rounds to an infinity, that
    is when its absolute value is at least 2^1024 - 2^970. *)
Definition float64_limit : Z := 2 ^ 1024 - 2 ^ 970.

Definition in_float64_range (n : number) : bool :=
  let scale := (if num_exp_negative n then - num_exp n else num_exp n)
               - num_fraction n in
  if num_mantissa n =? 0 then true
  else if 400 <? scale then false
  else if scale + num_digits n <? 300 then true
  else if 0 <=? scale then num_mantissa n * 10 ^ scale <? float64_limit
  else num_mantissa n <? float64_limit * 10 ^ (- scale).

Definition number_token (n : number) : token :=
  TNumber (text_of (num_text n)) (in_float64_range n).

Definition push_text (c : ascii) (n : number) : number :=
  mkNumber (c :: num_text n) (num_mantissa n) (num_digits n) (num_fraction n)
           (num_exp_negative n) (num_exp n).

Definition push_digit (c : ascii) (d : Z) (fraction : bool) (n : number) : number :=
  mkNumber (c :: num_text n) (10 * num_mantissa n + d) (num_digits n + 1)
           (if fraction then num_fraction n + 1 else num_fraction n)
           (num_exp_negative n) (num_exp n).

Definition push_exp_sign (c : ascii) (n : number) : number :=
  mkNumber (c :: num_text n) (num_mantissa n) (num_digits n) (num_fraction n)
           (code c =? 45) (num_exp n).

Definition push_exp_digit (c : ascii) (d : Z) (n : number) : number :=
  mkNumber (c :: num_text n) (num_mantissa n) (num_digits n) (num_fraction n)
           (num_exp_negative n) (10 * num_exp n + d).

Definition empty_number : number := mkNumber [] 0 0 0 false 0.

(** The first byte of a token. *)
Definition lex_start (c : ascii) : lexstate * list token :=
  let n := code c in
  if is_space c then (LStart, [TSpace])
  else if n =? 123 then (LStart, [TLBrace])
  else if n =? 125 then (LStart, [TRBrace])
  else if n =? 91 then (LStart, [TLBracket])
  else if n =? 93 then (LStart, [TRBracket])
  else if n =? 58 then (LStart, [TColon])
  else if n =? 44 then (LStart, [TComma])
  else if n =? 34 then (LString [] None, [])
  else if n =? 110 then (LWord "ull" VNil, [])
  else if n =? 116 then (LWord "rue" (VBool true), [])
  else if n =? 102 then (LWord "alse" (VBool false), [])
  else if n =? 45 then (LNumber NNeg (push_text c empty_number), [])
  else if n =? 48 then (LNumber NZero (push_digit c 0 false empty_number), [])
  else match digit_value c with
       | Some d => (LNumber NInt (push_digit c d false empty_number), [])
       | None => (LDead, [TBad])
       end.

(** A number that is complete ends at the first byte that cannot extend
    it; that byte then starts the next token. *)
Definition number_ends (n : number) (c : ascii) : lexstate * list token :=
  let '(st, ts) := lex_start c in (st, number_token n :: ts).

Definition is_e (c : ascii) : bool := (code c =? 101) || (code c =? 69).
Definition is_sign (c : ascii) : bool := (code c =? 43) || (code c =? 45).

Definition lex_number (st : numstate) (n : number) (c : ascii)
    : lexstate * list token :=
  match st, digit_value c with
  | NNeg, Some d =>
      (LNumber (if d =? 0 then NZero else NInt) (push_digit c d false n), [])
  | NNeg, None => (LDead, [TBad])
  | NInt, Some d => (LNumber NInt (push_digit c d false n), [])
  | (NZero | NInt), _ =>
      if code c =? 46 then (LNumber NDot (push_text c n), [])
      else if is_e c then (LNumber NExp (push_text c n), [])
      else number_ends n c
  | (NDot | NFrac), Some d => (LNumber NFrac (push_digit c d true n), [])
  | NDot, None => (LDead, [TBad])
  | NFrac, None =>
      if is_e c then (LNumber NExp (push_text c n), [])
      else number_ends n c
  | (NExp | NExpSign | NExpDigits), Some d =>
      (LNumber NExpDigits (push_exp_digit c d n), [])
  | NExp, None =>
      if is_sign c then (LNumber NExpSign (push_exp_sign c n), [])
      else (LDead, [TBad])
  | NExpSign, None => (LDead, [TBad])
  | NExpDigits, None => number_ends n c
  end.

(** A code point written as [\uXXXX] inside a string. *)
Definition lex_code_point (acc : list ascii) (high : option Z) (r : Z)
    : lexstate :=
  match high with
  | Some h =>
      if (56320 <=? r) && (r <? 57344) then
        LString (utf8_rev (65536 + (h - 55296) * 1024 + (r - 56320)) ++ acc)%list None
      else if (55296 <=? r) && (r <? 56320) then
        LString (replacement ++ acc)%list (Some r)
      else LString (utf8_rev r ++ replacement ++ acc)%list None
  | None =>
      if (55296 <=? r) && (r <? 56320) then LString acc (Some r)
      else if (56320 <=? r) && (r <? 57344) then
        LString (replacement ++ acc)%list None
      else LString (utf8_rev r ++ acc)%list None
  end.

Definition lex_escape (acc : list ascii) (high : option Z) (c : ascii)
    : lexstate * list token :=
  let n := code c in
  let plain (b : Z) := (LString (byte b :: flush acc high) None, []) in
  if (n =? 34) || (n =? 92) || (n =? 47) then plain n
  else if n =? 98 then plain 8
  else if n =? 102 then plain 12
  else if n =? 110 then plain 10
  else if n =? 114 then plain 13
  else if n =? 116 then plain 9
  else if n =? 117 then (LHex acc high 0 0, [])
  else (LDead, [TBad]).

Definition lex_step (st : lexstate) (c : ascii) : lexstate * list token :=
  match st with
  | LStart => lex_start c
  | LWord rest v =>
      match rest with
      | String c' rest' =>
          if Ascii.eqb c c' then
            match rest' with
            | "" => (LStart, [TLiteral v])
            | _ => (LWord rest' v, [])
            end
          else (LDead, [TBad])
      | "" => (LDead, [TBad])
      end
  | LNumber ns n => lex_number ns n c
  | LString acc high =>
      if code c =? 34 then (LStart, [TString (text_of (flush acc high))])
      else if code c =? 92 then (LEscape acc high, [])
      else if code c <? 32 then (LDead, [TBad])
      else (LString (c :: flush acc high) None, [])
  | LEscape acc high => lex_escape acc high c
  | LHex acc high count r =>
      match hex_value c with
      | Some d =>
          if (count =? 3)%nat then (lex_code_point acc high (16 * r + d), [])
          else (LHex acc high (S count) (16 * r + d), [])
      | None => (LDead, [TBad])
      end
  | LDead => (LDead, [])
  end.

(** The end of the text. *)
Definition lex_end (st : lexstate) : list token :=
  match st with
  | LStart | LDead => []
  | LWord _ _ => [TCutValue]
  | LNumber (NZero | NInt | NFrac | NExpDigits) n => [number_token n]
  | LNumber _ _ => [TCutValue]
  | LString _ _ | LEscape _ _ | LHex _ _ _ _ => [TCutString]
  end.

Fixpoint lex (st : lexstate) (s : string) : list token :=
  match s with
  | "" => lex_end st
  | String c s' => let '(st', ts) := lex_step st c in (ts ++ lex st' s')%list
  end.

(** An open array with its elements so far (latest first), or an open
    object with its members so far and the key that awaits its value. *)
Inductive frame : Type :=
| FArray (elements : list GoValue)
| FObject (members : gmap string GoValue) (key : option string).

(** What the grammar allows next. *)
Inductive expect : Type :=
| EValue            (* a value *)
| EValueOrEnd       (* a value or the end of an empty array *)
| EKey              (* a key *)
| EKeyOrEnd         (* a key or the end of an empty object *)
| EColon            (* the colon after a key *)
| ENext.            (* a comma or the end of the open array or object *)

Inductive outcome : Type :=
| Value (v : GoValue) (in_range : bool) (rest : list token)
| Syntax
| Truncated.

Definition maxNestingDepth : Z := 10000.

(** A value is complete: it is the result, or it joins the open array or
    object. *)
Inductive progress : Type :=
| Continue (e : expect) (stack : list frame) (ok : bool)
| Finished (v : GoValue) (ok : bool)
| Rejected
| Starved.

Definition close_value (v : GoValue) (stack : list frame) (ok : bool)
    : progress :=
  match stack with
  | [] => Finished v ok
  | FArray elements :: stack' =>
      Continue ENext (FArray (v :: elements) :: stack') ok
  | FObject members (Some k) :: stack' =>
      Continue ENext (FObject (<[k := v]> members) None :: stack') ok
  | FObject members None :: stack' => Rejected
  end.

(** An array or an object opens, unless it is nested too deep. *)
Definition open_value (f : frame) (e : expect) (stack : list frame)
    (ok : bool) : progress :=
  if maxNestingDepth <=? Z.of_nat (List.length stack) then Rejected
  else Continue e (f :: stack) ok.

Definition wants_value (e : expect) : bool :=
  match e with
  | EValue | EValueOrEnd => true
  | _ => false
  end.

Definition wants_key (e : expect) : bool :=
  match e with
  | EKey | EKeyOrEnd => true
  | _ => false
  end.

Definition parse_step (e : expect) (stack : list frame) (ok : bool)
    (t : token) : progress :=
  match t with
  | TSpace => Continue e stack ok
  | TBad => Rejected
  | TCutString => if wants_value e || wants_key e then Starved else Rejected
  | TCutValue => if wants_value e then Starved else Rejected
  | TLiteral v => if wants_value e then close_value v stack ok else Rejected
  | TNumber literal r =>
      if wants_value e
      then close_value (VFloat64 (Finite literal)) stack (ok && r)
      else Rejected
  | TString s =>
      if wants_value e then close_value (VString s) stack ok
      else match e, stack with
           | (EKey | EKeyOrEnd), FObject members _ :: stack' =>
               Continue EColon (FObject members (Some s) :: stack') ok
           | _, _ => Rejected
           end
  | TLBracket =>
      if wants_value e then open_value (FArray []) EValueOrEnd stack ok
      else Rejected
  | TLBrace =>
      if wants_value e then open_value (FObject ∅ None) EKeyOrEnd stack ok
      else Rejected
  | TColon =>
      match e with
      | EColon => Continue EValue stack ok
      | _ => Rejected
      end
  | TComma =>
      match e, stack with
      | ENext, FArray _ :: _ => Continue EValue stack ok
      | ENext, FObject _ _ :: _ => Continue EKey stack ok
      | _, _ => Rejected
      end
  | TRBracket =>
      match e, stack with
      | (EValueOrEnd | ENext), FArray elements :: stack' =>
          close_value (VSlice (rev elements)) stack' ok
      | _, _ => Rejected
      end
  | TRBrace =>
      match e, stack with
      | (EKeyOrEnd | ENext), FObject members _ :: stack' =>
          close_value (VMap members) stack' ok
      | _, _ => Rejected
      end
  end.

Fixpoint parse (e : expect) (stack : list frame) (ok : bool)
    (ts : list token) : outcome :=
  match ts with
  | [] => Truncated
  | t :: ts' =>
      match parse_step e stack ok t with
      | Continue e' stack' ok' => parse e' stack' ok' ts'
      | Finished v ok' => Value v ok' ts'
      | Rejected => Syntax
      | Starved => Truncated
      end
  end.

(** The first JSON value of a text. *)
Definition first_value (text : string) : outcome :=
  parse EValue [] true (lex LStart text).

Definition is_scalar (v : GoValue) : bool :=
  match v with
  | VSlice _ | VMap _ => false
  | _ => true
  end.

Fixpoint has_non_space (text : string) : bool :=
  match text with
  | "" => false
  | String c text' => negb (is_space c) || has_non_space text'
  end.

End json.

(** ** io, io/ioutil *)

(** A response body: the bytes the stream delivers, and the error that
    ends it when it does not end with the end of the data. *)
Record ReadCloser : Type := mkBody {
  contents : string;
  read_error : option GoError
}.

Module ioutil.

(** [ReadAll] returns what it has read and the error that stopped it, none
    when it reached the end of the data. *)
Definition ReadAll (r : ReadCloser) : string * option GoError :=
  (contents r, read_error r).

End ioutil.

(** ** The decoder on a stream *)

Module Decoder.

(** The first value of the stream and whether its numbers fit a
    [float64].  An array or an object is complete with its closing byte;
    any other value is complete only when the byte after it, or the end of
    the data, is seen, so that a read error right after it prevails.  At
    the end of the data, a stream with nothing but white space gives
    [io.EOF] and a value cut short gives [io.ErrUnexpectedEOF]. *)
Definition readValue (r : ReadCloser) : Result (GoValue * bool) :=
  match json.first_value (contents r) with
  | json.Value v ok rest =>
      match read_error r, json.is_scalar v, rest with
      | Some err, true, [] => Err err
      | _, _, _ => Ok (v, ok)
      end
  | json.Syntax => Err json_SyntaxError
  | json.Truncated =>
      match read_error r with
      | Some err => Err err
      | None =>
          if json.has_non_space (contents r) then Err io_ErrUnexpectedEOF
          else Err io_EOF
      end
  end.

(** [json.NewDecoder(r).Decode(&v)] for [var v interface{}] *)
Definition Decode (r : ReadCloser) : Result GoValue :=
  match readValue r with
  | Ok (v, true) => Ok v
  | Ok (_, false) => Err json_UnmarshalTypeError
  | Err err => Err err
  end.

(** A destination [out] that is not [nil]: what storing a JSON value into
    it gives, the stored value or the error of the mismatch
    ([json_UnmarshalTypeError], or [json_InvalidUnmarshalError] for a
    destination that is not a pointer). *)
Definition Destination : Type := GoValue -> Result GoValue.

(** [json.NewDecoder(r).Decode(out)] *)
Definition DecodeInto (out : Destination) (r : ReadCloser) : Result GoValue :=
  match readValue r with
  | Ok (v, _) => out v
  | Err err => Err err
  end.

End Decoder.

(** ** net/http *)

Module http.

Definition MethodGet : string := "GET".
Definition MethodPost : string := "POST".
Definition MethodDelete : string := "DELETE".

(** [Header] is a [map[string][]string]. *)
Record Request : Type := mkRequest {
  Method : string;
  URL : string;
  Header : gmap string (list string);
  Body : option string
}.

Record Response : Type := mkResponse {
  StatusCode : Z;
  ResponseBody : ReadCloser
}.

(** The bytes of a token: letters, digits and [!#$%&'*+-.^_`|~]. *)
Definition isTokenByte (c : ascii) : bool :=
  let n := json.code c in
  ((48 <=? n) && (n <=? 57)) || ((65 <=? n) && (n <=? 90))
  || ((97 <=? n) && (n <=? 122))
  || existsb (Z.eqb n) [33; 35; 36; 37; 38; 39; 42; 43; 45; 46; 94; 95; 96; 124; 126].

Fixpoint isToken (s : string) : bool :=
  match s with
  | "" => true
  | String c s' => isTokenByte c && isToken s'
  end.

Definition upper (c : ascii) : ascii :=
  let n := json.code c in
  if (97 <=? n) && (n <=? 122) then json.byte (n - 32) else c.

Definition lower (c : ascii) : ascii :=
  let n := json.code c in
  if (65 <=? n) && (n <=? 90) then json.byte (n + 32) else c.

Fixpoint canonical (first : bool) (s : string) : string :=
  match s with
  | "" => ""
  | String c s' =>
      String (if first then upper c else lower c)
             (canonical (json.code c =? 45) s')
  end.

(** [textproto.CanonicalMIMEHeaderKey]: a key made of token bytes gets an
    upper-case letter at its start and after each hyphen and lower-case
    letters elsewhere; any other key is left as it is. *)
Definition CanonicalMIMEHeaderKey (key : string) : string :=
  if isToken key then canonical true key else key.

(** [h.Add(key, value)] and [h.Set(key, value)] *)
Definition Add (key value : string) (h : gmap string (list string))
    : gmap string (list string) :=
  let k := CanonicalMIMEHeaderKey key in
  <[k := (default [] (h !! k) ++ [value])%list]> h.

Definition Set_ (key value : string) (h : gmap string (list string))
    : gmap string (list string) :=
  <[CanonicalMIMEHeaderKey key := [value]]> h.

Definition with_header (f : gmap string (list string) -> gmap string (list string))
    (r : Request) : Request :=
  mkRequest (Method r) (URL r) (f (Header r)) (Body r).

(** [http.NewRequest(method, url, body)]: an empty method stands for GET,
    the method must be a token and the URL must parse; the new request has
    no header.  [url_Parse] gives the error of [net/url.Parse] on a string,
    if any. *)
Definition NewRequest (url_Parse : string -> option GoError)
    (method url : string) (body : option string) : Result Request :=
  let method := if String.eqb method "" then MethodGet else method in
  if negb (isToken method) then Err (http_InvalidMethod method)
  else match url_Parse url with
       | Some err => Err err
       | None => Ok (mkRequest method url ∅ body)
       end.

End http.

(** ** Effects of a call *)

(** What a call does to the outside, in the order in which it does it. *)
Inductive Event : Type :=
| EvNewRequest (method url : string) (body : option string)
| EvDo (request : http.Request)
| EvReadAll
| EvDecode
| EvClose.

(** A call gives its trace and what it returns. *)
Definition Exec (A : Type) : Type := list Event * Result A.

Definition done {A : Type} (r : Result A) : Exec A := ([], r).

Definition event {A : Type} (ev : Event) (k : Exec A) : Exec A :=
  (ev :: fst k, snd k).

(** [defer]: the event happens when the rest of the function has run. *)
Definition defer {A : Type} (ev : Event) (k : Exec A) : Exec A :=
  (fst k ++ [ev], snd k)%list.

Declare Scope exec_scope.
Delimit Scope exec_scope with exec.
Notation "ev ;; k" := (event ev k)
  (at level 100, k at level 200, right associativity) : exec_scope.
Local Open Scope exec_scope.

(** ** clients/APIClient.go *)

(** The client: its name, the prefix of its URLs and its transport,
    [HTTPClient.Do]. *)
Record APIClient : Type := mkAPIClient {
  AppName : string;
  BaseURL : string;
  HTTPClient : http.Request -> Result http.Response
}.

(** [microappCtx.ExecutionContext], of which the client uses one method. *)
Record ExecutionContext : Type := mkContext {
  GetCorrelationID : string
}.

Section Client.

(** The error of [net/url.Parse] on a string, if any. *)
Variable url_Parse : string -> option GoError.

Variable apiClient : APIClient.

(** [out] is [None] for a [nil] destination.  The result of the call is
    its error; on success it comes with the value stored through [out],
    if one was. *)
Definition DoRequestWithResponseParam (context : ExecutionContext)
    (url requestMethod rawToken : string)
    (payload : option (gmap string GoValue))
    (out : option Decoder.Destination) : Exec (option GoValue) :=
  let apiURL := BaseURL apiClient ++ url in
  match
    match payload with
    | Some payload =>
        match json.Marshal payload with
        | Err err =>
            Err (NewAPICallError apiURL None None
                   (Errorf_w "Unable to marshal payload: %w" err))
        | Ok bytePayload => Ok (Some bytePayload)
        end
    | None => Ok None
    end
  with
  | Err err => done (Err err)
  | Ok body =>
  EvNewRequest requestMethod apiURL body ;;
  match http.NewRequest url_Parse requestMethod apiURL body with
  | Err err =>
      done (Err (NewAPICallError apiURL None None
                   (Errorf_w "Unable to create HTTP request: %w" err)))
  | Ok request =>
  let request :=
    if negb (String.eqb rawToken "") then
      if String.prefix "Bearer" rawToken then
        http.with_header (http.Add "Authorization" rawToken) request
      else
        http.with_header (http.Add "Authorization" ("Bearer " ++ rawToken)) request
    else request in
  let request := http.with_header (http.Set_ "X-Client" (AppName apiClient)) request in
  let request :=
    http.with_header (http.Set_ "X-Correlation-ID" (GetCorrelationID context)) request in
  let request := http.with_header (http.Set_ "Content-Type" "application/json") request in
  EvDo request ;;
  match HTTPClient apiClient request with
  | Err err =>
      done (Err (NewAPICallError apiURL None None
                   (Errorf_w "Unable to invoke API: %w" err)))
  | Ok response =>
  defer EvClose (
  if 300 <? http.StatusCode response then
    EvReadAll ;;
    let responseBodyString :=
      match ioutil.ReadAll (http.ResponseBody response) with
      | (responseBodyBytes, Some err) => responseBodyBytes
      | (_, None) => ""
      end in
    done (Err (NewAPICallError apiURL (Some (http.StatusCode response))
                 (Some responseBodyString)
                 (Errorf_v "Received non-success code: %v"
                    (http.StatusCode response))))
  else
  match out with
  | Some out =>
      EvDecode ;;
      match Decoder.DecodeInto out (http.ResponseBody response) with
      | Err err =>
          done (Err (NewAPICallError apiURL (Some (http.StatusCode response)) None
                       (Errorf_w "Unable parse response payload: %w" err)))
      | Ok stored => done (Ok (Some stored))
      end
  | None => done (Ok None)
  end)
  end end end.

Definition doRequest (context : ExecutionContext)
    (url requestMethod rawToken : string)
    (payload : option (gmap string GoValue)) : Exec GoValue :=
  let apiURL := BaseURL apiClient ++ url in
  match
    match payload with
    | Some payload =>
        match json.Marshal payload with
        | Err err =>
            Err (NewAPICallError apiURL None None
                   (Errorf_w "Unable to marshal payload: %w" err))
        | Ok bytePayload => Ok (Some bytePayload)
        end
    | None => Ok None
    end
  with
  | Err err => done (Err err)
  | Ok body =>
  EvNewRequest requestMethod apiURL body ;;
  match http.NewRequest url_Parse requestMethod apiURL body with
  | Err err =>
      done (Err (NewAPICallError apiURL None None
                   (Errorf_w "Unable to create HTTP request: %w" err)))
  | Ok request =>
  let request :=
    if negb (String.eqb rawToken "") then
      if String.prefix "Bearer" rawToken then
        http.with_header (http.Add "Authorization" rawToken) request
      else
        http.with_header (http.Add "Authorization" ("Bearer " ++ rawToken)) request
    else request in
  let request := http.with_header (http.Set_ "X-Client" (AppName apiClient)) request in
  let request :=
    http.with_header (http.Set_ "X-Correlation-ID" (GetCorrelationID context)) request in
  let request := http.with_header (http.Set_ "Content-Type" "application/json") request in
  EvDo request ;;
  match HTTPClient apiClient request with
  | Err err =>
      done (Err (NewAPICallError apiURL None None
                   (Errorf_w "Unable to invoke API: %w" err)))
  | Ok response =>
  defer EvClose (
  if 300 <? http.StatusCode response then
    EvReadAll ;;
    let responseBodyString :=
      match ioutil.ReadAll (http.ResponseBody response) with
      | (responseBodyBytes, Some err) => responseBodyBytes
      | (_, None) => ""
      end in
    done (Err (NewAPICallError apiURL (Some (http.StatusCode response))
                 (Some responseBodyString)
                 (Errorf_v "Received non-success code: %v"
                    (http.StatusCode response))))
  else
  EvDecode ;;
  match Decoder.Decode (http.ResponseBody response) with
  | Err err =>
      done (Err (NewAPICallError apiURL (Some (http.StatusCode response)) None
                   (Errorf_w "Unable parse response payload: %w" err)))
  | Ok mapResponse => done (Ok mapResponse)
  end)
  end end end.

(** The error of a response that does not have the expected shape. *)
Definition errCouldNotParse : GoError := errors_New "Could not parse Json to map".

Definition DoGet (context : ExecutionContext) (requestString rawToken : string)
    : Exec (gmap string GoValue) :=
  match doRequest context requestString http.MethodGet rawToken None with
  | (trace, Err err) => (trace, Err err)
  | (trace, Ok response) =>
      match assert_map response with
      | None => (trace, Err errCouldNotParse)
      | Some mapResponse => (trace, Ok mapResponse)
      end
  end.

(** The loop of [DoGetList] over the elements that remain, with the slice
    built so far. *)
Fixpoint DoGetList_range (sliceOfMapObjects : Slice (gmap string GoValue))
    (rest : list GoValue) : Result (Slice (gmap string GoValue)) :=
  match rest with
  | [] => Ok sliceOfMapObjects
  | obj :: rest' =>
      match assert_map obj with
      | Some mapObject => DoGetList_range (append sliceOfMapObjects mapObject) rest'
      | None => Err errCouldNotParse
      end
  end.

Definition DoGetList (context : ExecutionContext) (requestString rawToken : string)
    : Exec (Slice (gmap string GoValue)) :=
  match doRequest context requestString http.MethodGet rawToken None with
  | (trace, Err err) => (trace, Err err)
  | (trace, Ok response) =>
      match assert_slice response with
      | None => (trace, Err errCouldNotParse)
      | Some sliceOfGenericObjects =>
          (trace, DoGetList_range None sliceOfGenericObjects)
      end
  end.

Definition DoPost (context : ExecutionContext) (requestString rawToken : string)
    (payload : option (gmap string GoValue)) : Exec (gmap string GoValue) :=
  match doRequest context requestString http.MethodPost rawToken payload with
  | (trace, Err err) => (trace, Err err)
  | (trace, Ok response) =>
      match assert_map response with
      | None => (trace, Err errCouldNotParse)
      | Some mapResponse => (trace, Ok mapResponse)
      end
  end.

Definition DoDelete (context : ExecutionContext) (requestString rawToken : string)
    (payload : option (gmap string GoValue)) : Exec unit :=
  match doRequest context requestString http.MethodDelete rawToken payload with
  | (trace, Err err) => (trace, Err err)
  | (trace, Ok _) => (trace, Ok tt)
  end.

End Client.

(** ** What a trace shows *)

(** The requests handed to the transport. *)
Definition sent (trace : list Event) : list http.Request :=
  omap (fun ev => match ev with EvDo request => Some request | _ => None end) trace.

(** The response the call got: the answer of the transport to the one
    request of the trace.  It is [None] for a call that sent nothing and
    for one whose exchange failed. *)
Definition received (apiClient : APIClient) (trace : list Event)
    : option http.Response :=
  match sent trace with
  | [request] =>
      match HTTPClient apiClient request with
      | Ok response => Some response
      | Err _ => None
      end
  | _ => None
  end.

(** Whether the call tried to decode the body of the response. *)
Definition decodes (trace : list Event) : bool :=
  existsb (fun ev => match ev with EvDecode => true | _ => false end) trace.

(** The trace without its decoding step. *)
Definition apart_from_decoding (trace : list Event) : list Event :=
  List.filter (fun ev => match ev with EvDecode => false | _ => true end) trace.

(** The rule of the specification for the [Authorization] header: none
    for an empty token, the token as it is when it starts with [Bearer],
    and [Bearer ] before it otherwise. *)
Definition bearer (rawToken : string) : option (list string) :=
  if String.eqb rawToken "" then None
  else if String.prefix "Bearer" rawToken then Some [rawToken]
  else Some ["Bearer " ++ rawToken].

(** Whether a decoded value is a JSON object. *)
Definition is_object (v : GoValue) : bool :=
  match v with
  | VMap _ => true
  | _ => false
  end.

(** ** Scenarios *)

Module Scenario.

(** The texts of the scenarios are written with an apostrophe where the
    JSON text has a double quote. *)
Fixpoint text (s : string) : string :=
  match s with
  | "" => ""
  | String c s' =>
      String (if Ascii.eqb c "'" then json.dquote else c) (text s')
  end.

(** Every URL parses. *)
Definition url_Parse (url : string) : option GoError := None.

(** A service that answers every request with the given status and body. *)
Definition service (status : Z) (body : string) : APIClient :=
  mkAPIClient "orders" "http://inventory"
    (fun _ => Ok (http.mkResponse status (mkBody body None))).

Definition context : ExecutionContext := mkContext "c-1".

(** A payload with a value that has no JSON form. *)
Definition unserializable : gmap string GoValue :=
  {[ "ratio" := VFloat64 NaN ]}.

(** The destination [*[]interface{}], which takes arrays only. *)
Definition array_destination : Decoder.Destination :=
  fun v =>
    match v with
    | VSlice _ => Ok v
    | _ => Err json_UnmarshalTypeError
    end.

(** The request of a GET of [/widgets] with the token [secret]. *)
Definition authorized : http.Request :=
  http.mkRequest "GET" "http://inventory/widgets"
    (<["Authorization" := ["Bearer secret"]]>
       (<["X-Client" := ["orders"]]>
          (<["X-Correlation-Id" := ["c-1"]]>
             (<["Content-Type" := ["application/json"]]> ∅))))
    None.

(** A service that cannot be reached. *)
Definition unreachable : APIClient :=
  mkAPIClient "orders" "http://inventory"
    (fun _ => Err (OtherError "connection refused")).

(** The request of a GET of [/widgets] without token. *)
Definition anonymous : http.Request :=
  http.mkRequest "GET" "http://inventory/widgets"
    (<["X-Client" := ["orders"]]>
       (<["X-Correlation-Id" := ["c-1"]]>
          (<["Content-Type" := ["application/json"]]> ∅)))
    None.

(** Two widgets. *)
Definition widgets : list (gmap string GoValue) :=
  [ {[ "id" := VFloat64 (Finite "1") ]}; {[ "id" := VFloat64 (Finite "2") ]} ].

End Scenario.

(** * Properties *)

(** ** Requests *)

Lemma NewRequest_Header url_Parse method url body request :
  http.NewRequest url_Parse method url body = Ok request ->
  http.Header request = ∅.
Proof.
  unfold http.NewRequest.
  destruct (negb _); [discriminate |].
  destruct (url_Parse url); [discriminate |].
  intros [= <-]. reflexivity.
Qed.

Lemma Set_other key value h k :
  http.CanonicalMIMEHeaderKey key <> k ->
  http.Set_ key value h !! k = h !! k.
Proof. intros Hne. unfold http.Set_. by rewrite lookup_insert_ne. Qed.

Lemma Add_fresh value (h : gmap string (list string)) :
  h !! "Authorization" = None ->
  http.Add "Authorization" value h !! "Authorization" = Some [value].
Proof.
  intros Hnone. unfold http.Add.
  change (http.CanonicalMIMEHeaderKey "Authorization") with "Authorization".
  rewrite lookup_insert_eq, Hnone. reflexivity.
Qed.

(** The header of the request that both operations hand to the transport,
    built from a request that has no header yet. *)
Lemma Authorization_header appName correlationID rawToken request :
  http.Header request = ∅ ->
  http.Header
    (http.with_header (http.Set_ "Content-Type" "application/json")
       (http.with_header (http.Set_ "X-Correlation-ID" correlationID)
          (http.with_header (http.Set_ "X-Client" appName)
             (if negb (String.eqb rawToken "")
              then
                if String.prefix "Bearer" rawToken
                then http.with_header (http.Add "Authorization" rawToken) request
                else http.with_header
                       (http.Add "Authorization" ("Bearer " ++ rawToken)) request
              else request)))) !! "Authorization"
  = bearer rawToken.
Proof.
  intros Hempty. unfold bearer. cbn [http.with_header http.Header].
  rewrite !Set_other by (vm_compute; discriminate).
  destruct (String.eqb rawToken ""); cbn [negb].
  - rewrite Hempty. apply lookup_empty.
  - destruct (String.prefix "Bearer" rawToken); cbn [http.with_header http.Header];
      apply Add_fresh; rewrite Hempty; apply lookup_empty.
Qed.

(** ** The two request operations *)

(** Case analysis on the steps of a request operation. *)
Ltac run_request f :=
  unfold f, done, event, defer;
  repeat match goal with
  | |- context [match ?p with Some _ => _ | None => _ end] =>
      is_var p; destruct p
  | |- context [match json.Marshal ?p with _ => _ end] =>
      destruct (json.Marshal p) eqn:?
  | |- context [match http.NewRequest ?u ?m ?a ?b with _ => _ end] =>
      destruct (http.NewRequest u m a b) eqn:?
  | |- context [match HTTPClient ?c ?r with _ => _ end] =>
      let request := fresh "request" in
      set (request := r) in *; destruct (HTTPClient c request) eqn:?
  | |- context [if 300 <? ?s then _ else _] => destruct (300 <? s) eqn:?
  | |- context [match Decoder.Decode ?b with _ => _ end] =>
      destruct (Decoder.Decode b) eqn:?
  | |- context [match Decoder.DecodeInto ?o ?b with _ => _ end] =>
      destruct (Decoder.DecodeInto o b) eqn:?
  end;
  cbn [fst snd sent omap list_omap received decodes existsb app orb].

(** The response of a trace is the one the transport gave. *)
Ltac use_received :=
  match goal with
  | H : HTTPClient _ _ = _ |- _ => rewrite H
  end;
  first [ intros [= <-] | discriminate ].

Section Requests.

Variable url_Parse : string -> option GoError.
Variable apiClient : APIClient.
Variable context : ExecutionContext.
Variables url requestMethod rawToken : string.
Variable payload : option (gmap string GoValue).

Abbreviation apiURL := (BaseURL apiClient ++ url).
Abbreviation generic :=
  (doRequest url_Parse apiClient context url requestMethod rawToken payload).
Abbreviation typed out :=
  (DoRequestWithResponseParam url_Parse apiClient context url requestMethod
     rawToken payload out).

(** What [doRequest] does with the response it got. *)
Lemma doRequest_received response :
  received apiClient (fst generic) = Some response ->
  snd generic =
    (if 300 <? http.StatusCode response then
       Err (NewAPICallError apiURL (Some (http.StatusCode response))
              (Some match read_error (http.ResponseBody response) with
                    | Some _ => contents (http.ResponseBody response)
                    | None => ""
                    end)
              (Errorf_v "Received non-success code: %v" (http.StatusCode response)))
     else
       match Decoder.Decode (http.ResponseBody response) with
       | Ok mapResponse => Ok mapResponse
       | Err err =>
           Err (NewAPICallError apiURL (Some (http.StatusCode response)) None
                  (Errorf_w "Unable parse response payload: %w" err))
       end)
  /\ decodes (fst generic) = negb (300 <? http.StatusCode response).
Proof.
  run_request doRequest; try discriminate; use_received; try congruence;
    simplify_eq; unfold ioutil.ReadAll; try destruct (read_error _);
    split; solve [reflexivity | congruence].
Qed.

(** What [DoRequestWithResponseParam] does with the response it got. *)
Lemma DoRequestWithResponseParam_received out response :
  received apiClient (fst (typed out)) = Some response ->
  snd (typed out) =
    (if 300 <? http.StatusCode response then
       Err (NewAPICallError apiURL (Some (http.StatusCode response))
              (Some match read_error (http.ResponseBody response) with
                    | Some _ => contents (http.ResponseBody response)
                    | None => ""
                    end)
              (Errorf_v "Received non-success code: %v" (http.StatusCode response)))
     else
       match out with
       | Some destination =>
           match Decoder.DecodeInto destination (http.ResponseBody response) with
           | Ok stored => Ok (Some stored)
           | Err err =>
               Err (NewAPICallError apiURL (Some (http.StatusCode response)) None
                      (Errorf_w "Unable parse response payload: %w" err))
           end
       | None => Ok None
       end)
  /\ decodes (fst (typed out)) =
       negb (300 <? http.StatusCode response) && bool_decide (is_Some out).
Proof.
  run_request DoRequestWithResponseParam; try discriminate; use_received;
    try congruence; simplify_eq; unfold ioutil.ReadAll; try destruct (read_error _);
    split; solve [reflexivity | congruence].
Qed.

(** Every request that reaches the transport carries the header the token
    asks for. *)
Lemma doRequest_sent request :
  request ∈ sent (fst generic) ->
  http.Header request !! "Authorization" = bearer rawToken.
Proof.
  run_request doRequest; intros Hin; try (by apply elem_of_nil in Hin);
    apply list_elem_of_singleton in Hin; subst request;
    eapply Authorization_header, NewRequest_Header; eassumption.
Qed.


(** C3: a response with a status code from 100 to 300 is a success, 300
    included: the generic operation goes on to decode the body and returns
    what the decoding gives, and the typed operation does the same with its
    destination, if it has one.  A response with a status code from 301 to
    599 is a failure: both operations return the error of a non-success
    code without decoding anything. *)
Theorem status_classification out response :
  100 <= http.StatusCode response <= 599 ->
  (received apiClient (fst generic) = Some response ->
     (http.StatusCode response <= 300 ->
        decodes (fst generic) = true
        /\ snd generic =
             match Decoder.Decode (http.ResponseBody response) with
             | Ok mapResponse => Ok mapResponse
             | Err err =>
                 Err (APICallError apiURL (Some (http.StatusCode response)) None
                        (Errorf_w "Unable parse response payload: %w" err))
             end)
     /\ (301 <= http.StatusCode response ->
           decodes (fst generic) = false
           /\ exists text,
                snd generic =
                  Err (APICallError apiURL (Some (http.StatusCode response))
                         (Some text)
                         (Errorf_v "Received non-success code: %v"
                            (http.StatusCode response)))))
  /\ (received apiClient (fst (typed out)) = Some response ->
        (http.StatusCode response <= 300 ->
           snd (typed out) =
             match out with
             | Some destination =>
                 match Decoder.DecodeInto destination (http.ResponseBody response) with
                 | Ok stored => Ok (Some stored)
                 | Err err =>
                     Err (APICallError apiURL (Some (http.StatusCode response)) None
                            (Errorf_w "Unable parse response payload: %w" err))
                 end
             | None => Ok None
             end)
        /\ (301 <= http.StatusCode response ->
              decodes (fst (typed out)) = false
              /\ exists text,
                   snd (typed out) =
                     Err (APICallError apiURL (Some (http.StatusCode response))
                            (Some text)
                            (Errorf_v "Received non-success code: %v"
                               (http.StatusCode response))))).
Proof.
  intros _. split.
  - intros Hgeneric.
    destruct (doRequest_received _ Hgeneric) as [-> ->].
    split; intros Hstatus.
    + by rewrite (proj2 (Z.ltb_ge _ _) Hstatus).
    + rewrite (proj2 (Z.ltb_lt 300 _)) by lia. eauto.
  - intros Htyped.
    destruct (DoRequestWithResponseParam_received _ _ Htyped) as [-> ->].
    split; intros Hstatus.
    + by rewrite (proj2 (Z.ltb_ge _ _) Hstatus).
    + rewrite (proj2 (Z.ltb_lt 300 _)) by lia. eauto.
Qed.

(** C8: when the status is at most 300 and the body does not decode (it
    is not JSON, or it does not fit the destination of the typed
    operation), the operation returns the structured error with the URL
    and the status code and without body text. *)
Theorem decode_failure_error destination response err :
  http.StatusCode response <= 300 ->
  (received apiClient (fst generic) = Some response ->
   Decoder.Decode (http.ResponseBody response) = Err err ->
   snd generic =
     Err (APICallError apiURL (Some (http.StatusCode response)) None
            (Errorf_w "Unable parse response payload: %w" err)))
  /\ (received apiClient (fst (typed (Some destination))) = Some response ->
      Decoder.DecodeInto destination (http.ResponseBody response) = Err err ->
      snd (typed (Some destination)) =
        Err (APICallError apiURL (Some (http.StatusCode response)) None
               (Errorf_w "Unable parse response payload: %w" err))).
Proof.
  intros Hstatus. split.
  - intros Hgeneric Hdecode.
    destruct (doRequest_received _ Hgeneric) as [-> _].
    by rewrite (proj2 (Z.ltb_ge _ _) Hstatus), Hdecode.
  - intros Htyped Hinto.
    destruct (DoRequestWithResponseParam_received _ _ Htyped) as [-> _].
    by rewrite (proj2 (Z.ltb_ge _ _) Hstatus), Hinto.
Qed.

(** C9: with a nil destination and a status of at most 300, the typed
    operation returns no error and stores nothing, and it does not decode
    the body, whatever the body holds. *)
Theorem nil_destination_skips_decode response :
  received apiClient (fst (typed None)) = Some response ->
  http.StatusCode response <= 300 ->
  snd (typed None) = Ok None /\ decodes (fst (typed None)) = false.
Proof.
  intros Htyped Hstatus.
  destruct (DoRequestWithResponseParam_received _ _ Htyped) as [-> ->].
  rewrite (proj2 (Z.ltb_ge _ _) Hstatus). split; reflexivity.
Qed.


(** When the payload has a JSON form and the request can be built, the
    request does reach the transport. *)
Lemma doRequest_sends :
  (forall p, payload = Some p -> exists bytes, json.Marshal p = Ok bytes) ->
  (forall body, exists request,
      http.NewRequest url_Parse requestMethod apiURL body = Ok request) ->
  exists request, sent (fst generic) = [request].
Proof.
  intros Hmarshal Hnew.
  run_request doRequest; eauto;
    try (destruct (Hmarshal _ eq_refl); congruence);
    match goal with
    | H : http.NewRequest _ _ _ ?b = Err _ |- _ =>
        destruct (Hnew b); congruence
    end.
Qed.

End Requests.

(** ** The four operations *)

Section Operations.

Variable url_Parse : string -> option GoError.
Variable apiClient : APIClient.
Variable context : ExecutionContext.
Variables requestString rawToken : string.

Abbreviation apiURL := (BaseURL apiClient ++ requestString).

(** Each operation has the trace of its call of [doRequest], and returns
    the error of that call, if there is one. *)
Lemma DoGet_doRequest :
  DoGet url_Parse apiClient context requestString rawToken =
    let call := doRequest url_Parse apiClient context requestString
                  http.MethodGet rawToken None in
    (fst call,
     match snd call with
     | Ok response =>
         match assert_map response with
         | Some mapResponse => Ok mapResponse
         | None => Err errCouldNotParse
         end
     | Err err => Err err
     end).
Proof. unfold DoGet. destruct (doRequest _ _ _ _ _ _ _) as [? [v|?]]; [destruct v|]; done. Qed.

Lemma DoPost_doRequest payload :
  DoPost url_Parse apiClient context requestString rawToken payload =
    let call := doRequest url_Parse apiClient context requestString
                  http.MethodPost rawToken payload in
    (fst call,
     match snd call with
     | Ok response =>
         match assert_map response with
         | Some mapResponse => Ok mapResponse
         | None => Err errCouldNotParse
         end
     | Err err => Err err
     end).
Proof. unfold DoPost. destruct (doRequest _ _ _ _ _ _ _) as [? [v|?]]; [destruct v|]; done. Qed.

Lemma DoGetList_doRequest :
  DoGetList url_Parse apiClient context requestString rawToken =
    let call := doRequest url_Parse apiClient context requestString
                  http.MethodGet rawToken None in
    (fst call,
     match snd call with
     | Ok response =>
         match assert_slice response with
         | Some sliceOfGenericObjects => DoGetList_range None sliceOfGenericObjects
         | None => Err errCouldNotParse
         end
     | Err err => Err err
     end).
Proof. unfold DoGetList. destruct (doRequest _ _ _ _ _ _ _) as [? [v|?]]; [destruct v|]; done. Qed.

Lemma DoDelete_doRequest payload :
  DoDelete url_Parse apiClient context requestString rawToken payload =
    let call := doRequest url_Parse apiClient context requestString
                  http.MethodDelete rawToken payload in
    (fst call,
     match snd call with
     | Ok _ => Ok tt
     | Err err => Err err
     end).
Proof. unfold DoDelete. by destruct (doRequest _ _ _ _ _ _ _) as [? [?|?]]. Qed.

(** The loop fails at an element that is not an object, whatever it has
    collected and whatever follows. *)
Lemma DoGetList_range_non_object elements :
  forall sliceOfMapObjects x,
    x ∈ elements -> is_object x = false ->
    DoGetList_range sliceOfMapObjects elements = Err errCouldNotParse.
Proof.
  induction elements as [| obj rest IH]; intros acc x Hin Hx.
  - by apply elem_of_nil in Hin.
  - cbn [DoGetList_range]. destruct obj; try reflexivity.
    apply elem_of_cons in Hin as [-> | Hin]; [discriminate |].
    cbn [assert_map]. eauto.
Qed.

(** C5: when the payload has no JSON form, the operation returns at once:
    its trace is empty, so no request has been built or sent, and its
    error carries the URL and neither status code nor body text.  This
    holds for the two request operations and for the two operations that
    take a payload. *)
Theorem marshal_failure requestMethod payload out err :
  json.Marshal payload = Err err ->
  doRequest url_Parse apiClient context requestString requestMethod rawToken
    (Some payload)
    = ([], Err (APICallError apiURL None None
                  (Errorf_w "Unable to marshal payload: %w" err)))
  /\ DoRequestWithResponseParam url_Parse apiClient context requestString
       requestMethod rawToken (Some payload) out
     = ([], Err (APICallError apiURL None None
                   (Errorf_w "Unable to marshal payload: %w" err)))
  /\ DoPost url_Parse apiClient context requestString rawToken (Some payload)
     = ([], Err (APICallError apiURL None None
                   (Errorf_w "Unable to marshal payload: %w" err)))
  /\ DoDelete url_Parse apiClient context requestString rawToken (Some payload)
     = ([], Err (APICallError apiURL None None
                   (Errorf_w "Unable to marshal payload: %w" err))).
Proof.
  intros Hmarshal.
  assert (Hgeneric : forall method,
    doRequest url_Parse apiClient context requestString method rawToken
      (Some payload)
    = ([], Err (APICallError apiURL None None
                  (Errorf_w "Unable to marshal payload: %w" err)))).
  { intros method. unfold doRequest. by rewrite Hmarshal. }
  repeat split.
  - apply Hgeneric.
  - unfold DoRequestWithResponseParam. by rewrite Hmarshal.
  - by rewrite DoPost_doRequest, Hgeneric.
  - by rewrite DoDelete_doRequest, Hgeneric.
Qed.

(** What [DoDelete] does with a response of status 204: it decodes the
    body, as [doRequest] always does, and drops the decoded value.  It
    returns no error when the body holds a JSON value, of any shape; when
    the body is empty it returns the error of a failed decoding, with the
    URL and the status 204, without body text, and with the cause
    [io.EOF]. *)
Theorem DoDelete_decodes_body payload response :
  received apiClient
    (fst (DoDelete url_Parse apiClient context requestString rawToken payload))
    = Some response ->
  http.StatusCode response = 204 ->
  decodes (fst (DoDelete url_Parse apiClient context requestString rawToken payload))
    = true
  /\ (forall v, Decoder.Decode (http.ResponseBody response) = Ok v ->
        snd (DoDelete url_Parse apiClient context requestString rawToken payload)
          = Ok tt)
  /\ (http.ResponseBody response = mkBody "" None ->
        snd (DoDelete url_Parse apiClient context requestString rawToken payload)
          = Err (APICallError apiURL (Some 204) None
                   (Errorf_w "Unable parse response payload: %w" io_EOF))).
Proof.
  intros Hreceived Hstatus.
  rewrite DoDelete_doRequest in Hreceived |- *. cbn [fst snd] in *.
  destruct (doRequest_received _ _ _ _ _ _ _ _ Hreceived) as [-> ->].
  rewrite Hstatus. cbn [Z.ltb Z.compare Pos.compare Pos.compare_cont negb].
  split; [reflexivity |]. split.
  - by intros v ->.
  - by intros ->.
Qed.

(** C6: when the response is a success and its body decodes to an array
    with an element that is not an object, [DoGetList] returns the error
    of a shape mismatch and no slice, whatever the other elements are; the
    loop returns that error at the first such element, whatever it has
    collected before it and whatever follows it. *)
Theorem DoGetList_non_object response elements x :
  received apiClient
    (fst (DoGetList url_Parse apiClient context requestString rawToken))
    = Some response ->
  http.StatusCode response <= 300 ->
  Decoder.Decode (http.ResponseBody response) = Ok (VSlice elements) ->
  x ∈ elements ->
  is_object x = false ->
  snd (DoGetList url_Parse apiClient context requestString rawToken)
    = Err (errors_New "Could not parse Json to map")
  /\ forall before after collected,
       DoGetList_range collected (before ++ x :: after)%list
         = Err (errors_New "Could not parse Json to map").
Proof.
  intros Hreceived Hstatus Hdecode Hin Hx.
  rewrite DoGetList_doRequest in Hreceived |- *. cbn [fst snd] in *.
  destruct (doRequest_received _ _ _ _ _ _ _ _ Hreceived) as [-> _].
  rewrite (proj2 (Z.ltb_ge _ _) Hstatus), Hdecode. cbn [assert_slice].
  split.
  - by apply DoGetList_range_non_object with x.
  - intros before after collected.
    apply DoGetList_range_non_object with x; [| done].
    apply elem_of_app. right. apply elem_of_cons. by left.
Qed.

(** C7: when the response is a success and its body decodes to a value
    that is not an object, [DoGet] and [DoPost] return the error of a
    shape mismatch and no result. *)
Theorem DoGet_DoPost_non_object payload response v :
  http.StatusCode response <= 300 ->
  Decoder.Decode (http.ResponseBody response) = Ok v ->
  is_object v = false ->
  (received apiClient
     (fst (DoGet url_Parse apiClient context requestString rawToken))
     = Some response ->
   snd (DoGet url_Parse apiClient context requestString rawToken)
     = Err (errors_New "Could not parse Json to map"))
  /\ (received apiClient
        (fst (DoPost url_Parse apiClient context requestString rawToken payload))
        = Some response ->
      snd (DoPost url_Parse apiClient context requestString rawToken payload)
        = Err (errors_New "Could not parse Json to map")).
Proof.
  intros Hstatus Hdecode Hv. split.
  - intros HGet. rewrite DoGet_doRequest in HGet |- *. cbn [fst snd] in *.
    destruct (doRequest_received _ _ _ _ _ _ _ _ HGet) as [-> _].
    rewrite (proj2 (Z.ltb_ge _ _) Hstatus), Hdecode. by destruct v.
  - intros HPost. rewrite DoPost_doRequest in HPost |- *. cbn [fst snd] in *.
    destruct (doRequest_received _ _ _ _ _ _ _ _ HPost) as [-> _].
    rewrite (proj2 (Z.ltb_ge _ _) Hstatus), Hdecode. by destruct v.
Qed.

(** C10: when the response is a success and its body decodes to the empty
    array, [DoGetList] returns no error and the nil slice. *)
Theorem DoGetList_empty_array response :
  received apiClient
    (fst (DoGetList url_Parse apiClient context requestString rawToken))
    = Some response ->
  http.StatusCode response <= 300 ->
  Decoder.Decode (http.ResponseBody response) = Ok (VSlice []) ->
  snd (DoGetList url_Parse apiClient context requestString rawToken) = Ok None.
Proof.
  intros Hreceived Hstatus Hdecode.
  rewrite DoGetList_doRequest in Hreceived |- *. cbn [fst snd] in *.
  destruct (doRequest_received _ _ _ _ _ _ _ _ Hreceived) as [-> _].
  by rewrite (proj2 (Z.ltb_ge _ _) Hstatus), Hdecode.
Qed.

End Operations.

(** ** The scenarios of the specification *)

(** GET [/widgets/1] answered with 200 and an object: [DoGet] returns the
    object. *)
Example DoGet_widget :
  snd (DoGet Scenario.url_Parse
         (Scenario.service 200 (Scenario.text "{'id':1,'name':'x'}"))
         Scenario.context "/widgets/1" "")
  = Ok (<["id" := VFloat64 (Finite "1")]> (<["name" := VString "x"]> ∅)).
Proof. vm_compute. reflexivity. Qed.

(** POST [/widgets] answered with 201 and an object: [DoPost] returns the
    object, and the body of the request is the JSON form of the payload. *)
Example DoPost_widget :
  DoPost Scenario.url_Parse
    (Scenario.service 201 (Scenario.text "{'id':2,'name':'y'}"))
    Scenario.context "/widgets" "secret" (Some {[ "name" := VString "y" ]})
  = ([EvNewRequest "POST" "http://inventory/widgets" (Some (Scenario.text "{'name':'y'}"));
      EvDo (http.mkRequest "POST" "http://inventory/widgets"
              (<["Authorization" := ["Bearer secret"]]>
                 (<["X-Client" := ["orders"]]>
                    (<["X-Correlation-Id" := ["c-1"]]>
                       (<["Content-Type" := ["application/json"]]> ∅))))
              (Some (Scenario.text "{'name':'y'}")));
      EvDecode; EvClose],
     Ok (<["id" := VFloat64 (Finite "2")]> (<["name" := VString "y"]> ∅))).
Proof. vm_compute. reflexivity. Qed.

(** The decoder on an empty body. *)
Example Decode_empty_body : Decoder.Decode (mkBody "" None) = Err io_EOF.
Proof. reflexivity. Qed.

(** The first status code that is a failure. *)
Example doRequest_301 :
  snd (doRequest Scenario.url_Parse (Scenario.service 301 "{}")
         Scenario.context "/widgets" "GET" "" None)
  = Err (APICallError "http://inventory/widgets" (Some 301) (Some "")
           (Errorf_v "Received non-success code: %v" 301)).
Proof. vm_compute. reflexivity. Qed.

(** A failure whose body breaks off after [not f]: the error carries the
    text that was read before the read failed. *)
Example DoGetList_read_error :
  snd (DoGetList Scenario.url_Parse
         (mkAPIClient "orders" "http://inventory"
            (fun _ => Ok (http.mkResponse 404
                            (mkBody "not f" (Some (OtherError "connection reset"))))))
         Scenario.context "/widgets" "")
  = Err (APICallError "http://inventory/widgets" (Some 404) (Some "not f")
           (Errorf_v "Received non-success code: %v" 404)).
Proof. vm_compute. reflexivity. Qed.

(** C1: GET [/widgets] answered with 404 and the body [not found], read
    to its end without error.  [DoGetList] returns the error of a
    non-success code with the URL and the status 404, but the body text of
    the error is empty: the text that was read is kept only when the read
    fails. *)
Theorem DoGetList_not_found :
  DoGetList Scenario.url_Parse (Scenario.service 404 "not found")
    Scenario.context "/widgets" ""
  = ([EvNewRequest "GET" "http://inventory/widgets" None;
      EvDo (http.mkRequest "GET" "http://inventory/widgets"
              (<["X-Client" := ["orders"]]>
                 (<["X-Correlation-Id" := ["c-1"]]>
                    (<["Content-Type" := ["application/json"]]> ∅)))
              None);
      EvReadAll; EvClose],
     Err (APICallError "http://inventory/widgets" (Some 404) (Some "")
            (Errorf_v "Received non-success code: %v" 404))).
Proof. vm_compute. reflexivity. Qed.

(** C2: DELETE [/widgets/1] answered with 204 and an empty body.
    [DoDelete] drops the value of the response, and yet it tries to decode
    the body and returns the error of the failed decoding, with the cause
    [io.EOF], not a nil error.  On the same response the typed operation
    without destination decodes nothing and returns a nil error. *)
Theorem DoDelete_no_content :
  received (Scenario.service 204 "")
    (fst (DoDelete Scenario.url_Parse (Scenario.service 204 "")
            Scenario.context "/widgets/1" "" None))
    = Some (http.mkResponse 204 (mkBody "" None))
  /\ decodes (fst (DoDelete Scenario.url_Parse (Scenario.service 204 "")
                     Scenario.context "/widgets/1" "" None)) = true
  /\ snd (DoDelete Scenario.url_Parse (Scenario.service 204 "")
            Scenario.context "/widgets/1" "" None)
     = Err (APICallError "http://inventory/widgets/1" (Some 204) None
              (Errorf_w "Unable parse response payload: %w" io_EOF))
  /\ snd (DoDelete Scenario.url_Parse (Scenario.service 204 "")
            Scenario.context "/widgets/1" "" None) <> Ok tt
  /\ DoRequestWithResponseParam Scenario.url_Parse (Scenario.service 204 "")
       Scenario.context "/widgets/1" "DELETE" "" None None
     = ([EvNewRequest "DELETE" "http://inventory/widgets/1" None;
         EvDo (http.mkRequest "DELETE" "http://inventory/widgets/1"
                 (<["X-Client" := ["orders"]]>
                    (<["X-Correlation-Id" := ["c-1"]]>
                       (<["Content-Type" := ["application/json"]]> ∅)))
                 None);
         EvClose],
        Ok None).
Proof. vm_compute. repeat split; discriminate. Qed.

(** ** The theorems at work *)

(** A DELETE answered with 204 and the body [{}]. *)
Lemma DoDelete_decodes_body_witness :
  (received (Scenario.service 204 "{}")
     (fst (DoDelete Scenario.url_Parse (Scenario.service 204 "{}")
             Scenario.context "/widgets/1" "t" None))
     = Some (http.mkResponse 204 (mkBody "{}" None))
   /\ http.StatusCode (http.mkResponse 204 (mkBody "{}" None)) = 204)
  /\ decodes (fst (DoDelete Scenario.url_Parse (Scenario.service 204 "{}")
                     Scenario.context "/widgets/1" "t" None)) = true
  /\ snd (DoDelete Scenario.url_Parse (Scenario.service 204 "{}")
            Scenario.context "/widgets/1" "t" None) = Ok tt.
Proof.
  assert (Hreceived :
    received (Scenario.service 204 "{}")
      (fst (DoDelete Scenario.url_Parse (Scenario.service 204 "{}")
              Scenario.context "/widgets/1" "t" None))
    = Some (http.mkResponse 204 (mkBody "{}" None))) by (vm_compute; reflexivity).
  split; [split; [exact Hreceived | reflexivity] |].
  destruct (DoDelete_decodes_body _ _ _ _ _ _ _ Hreceived eq_refl)
    as (Hdecodes & Hvalue & _).
  split; [exact Hdecodes |].
  apply (Hvalue (VMap ∅)). vm_compute. reflexivity.
Defined.

(** A GET answered with 300 and the empty array, through the generic
    operation and through the typed one with an array as destination. *)
Lemma status_classification_witness :
  (100 <= 300 <= 599
   /\ received (Scenario.service 300 "[]")
        (fst (doRequest Scenario.url_Parse (Scenario.service 300 "[]")
                Scenario.context "/widgets" "GET" "" None))
        = Some (http.mkResponse 300 (mkBody "[]" None))
   /\ received (Scenario.service 300 "[]")
        (fst (DoRequestWithResponseParam Scenario.url_Parse
                (Scenario.service 300 "[]") Scenario.context "/widgets" "GET" ""
                None (Some Scenario.array_destination)))
        = Some (http.mkResponse 300 (mkBody "[]" None))
   /\ 300 <= 300)
  /\ decodes (fst (doRequest Scenario.url_Parse (Scenario.service 300 "[]")
                     Scenario.context "/widgets" "GET" "" None)) = true
  /\ snd (doRequest Scenario.url_Parse (Scenario.service 300 "[]")
            Scenario.context "/widgets" "GET" "" None) = Ok (VSlice [])
  /\ snd (DoRequestWithResponseParam Scenario.url_Parse
            (Scenario.service 300 "[]") Scenario.context "/widgets" "GET" ""
            None (Some Scenario.array_destination)) = Ok (Some (VSlice [])).
Proof.
  assert (Hrange : 100 <= 300 <= 599) by lia.
  assert (Hgeneric :
    received (Scenario.service 300 "[]")
      (fst (doRequest Scenario.url_Parse (Scenario.service 300 "[]")
              Scenario.context "/widgets" "GET" "" None))
    = Some (http.mkResponse 300 (mkBody "[]" None))) by (vm_compute; reflexivity).
  assert (Htyped :
    received (Scenario.service 300 "[]")
      (fst (DoRequestWithResponseParam Scenario.url_Parse
              (Scenario.service 300 "[]") Scenario.context "/widgets" "GET" ""
              None (Some Scenario.array_destination)))
    = Some (http.mkResponse 300 (mkBody "[]" None))) by (vm_compute; reflexivity).
  assert (Hstatus : 300 <= 300) by lia.
  split; [by repeat split |].
  destruct (status_classification Scenario.url_Parse (Scenario.service 300 "[]")
              Scenario.context "/widgets" "GET" "" None
              (Some Scenario.array_destination)
              (http.mkResponse 300 (mkBody "[]" None)) Hrange)
    as [Hsuccess Hsuccess'].
  destruct (Hsuccess Hgeneric) as [Hdecode _].
  destruct (Hsuccess' Htyped) as [Hdecode' _].
  destruct (Hdecode Hstatus) as [-> ->].
  rewrite (Hdecode' Hstatus).
  repeat split; vm_compute; reflexivity.
Defined.


(** A POST whose payload holds a NaN. *)
Lemma marshal_failure_witness :
  json.Marshal Scenario.unserializable = Err json_UnsupportedValueError
  /\ DoPost Scenario.url_Parse (Scenario.service 201 "{}") Scenario.context
       "/widgets" "secret" (Some Scenario.unserializable)
     = ([], Err (APICallError "http://inventory/widgets" None None
                   (Errorf_w "Unable to marshal payload: %w"
                      json_UnsupportedValueError))).
Proof.
  assert (Hmarshal :
    json.Marshal Scenario.unserializable = Err json_UnsupportedValueError)
    by (vm_compute; reflexivity).
  split; [exact Hmarshal |].
  exact (proj1 (proj2 (proj2
    (marshal_failure Scenario.url_Parse (Scenario.service 201 "{}")
       Scenario.context "/widgets" "secret" "POST" _ None _ Hmarshal)))).
Defined.

(** A GET answered with an array whose second element is a number. *)
Lemma DoGetList_non_object_witness :
  (received (Scenario.service 200 (Scenario.text "[{'a':1}, 2]"))
     (fst (DoGetList Scenario.url_Parse (Scenario.service 200 (Scenario.text "[{'a':1}, 2]"))
             Scenario.context "/widgets" ""))
     = Some (http.mkResponse 200 (mkBody (Scenario.text "[{'a':1}, 2]") None))
   /\ 200 <= 300
   /\ Decoder.Decode (mkBody (Scenario.text "[{'a':1}, 2]") None)
      = Ok (VSlice [VMap {[ "a" := VFloat64 (Finite "1") ]}; VFloat64 (Finite "2")])
   /\ VFloat64 (Finite "2")
        ∈ [VMap {[ "a" := VFloat64 (Finite "1") ]}; VFloat64 (Finite "2")]
   /\ is_object (VFloat64 (Finite "2")) = false)
  /\ snd (DoGetList Scenario.url_Parse (Scenario.service 200 (Scenario.text "[{'a':1}, 2]"))
            Scenario.context "/widgets" "")
     = Err (errors_New "Could not parse Json to map").
Proof.
  assert (Hreceived :
    received (Scenario.service 200 (Scenario.text "[{'a':1}, 2]"))
      (fst (DoGetList Scenario.url_Parse (Scenario.service 200 (Scenario.text "[{'a':1}, 2]"))
              Scenario.context "/widgets" ""))
    = Some (http.mkResponse 200 (mkBody (Scenario.text "[{'a':1}, 2]") None)))
    by (vm_compute; reflexivity).
  assert (Hdecode :
    Decoder.Decode (mkBody (Scenario.text "[{'a':1}, 2]") None)
    = Ok (VSlice [VMap {[ "a" := VFloat64 (Finite "1") ]}; VFloat64 (Finite "2")]))
    by (vm_compute; reflexivity).
  assert (Hin :
    VFloat64 (Finite "2")
      ∈ [VMap {[ "a" := VFloat64 (Finite "1") ]}; VFloat64 (Finite "2")])
    by (do 2 constructor).
  assert (Hstatus : 200 <= 300) by lia.
  split; [by repeat split |].
  exact (proj1 (DoGetList_non_object _ _ _ _ _ _ _ _ Hreceived Hstatus Hdecode Hin
                  eq_refl)).
Defined.

(** A GET and a POST answered with an array. *)
Lemma DoGet_DoPost_non_object_witness :
  (200 <= 300
   /\ Decoder.Decode (mkBody "[]" None) = Ok (VSlice [])
   /\ is_object (VSlice []) = false
   /\ received (Scenario.service 200 "[]")
        (fst (DoGet Scenario.url_Parse (Scenario.service 200 "[]")
                Scenario.context "/widgets/1" ""))
        = Some (http.mkResponse 200 (mkBody "[]" None))
   /\ received (Scenario.service 200 "[]")
        (fst (DoPost Scenario.url_Parse (Scenario.service 200 "[]")
                Scenario.context "/widgets/1" "" None))
        = Some (http.mkResponse 200 (mkBody "[]" None)))
  /\ snd (DoGet Scenario.url_Parse (Scenario.service 200 "[]")
            Scenario.context "/widgets/1" "")
     = Err (errors_New "Could not parse Json to map")
  /\ snd (DoPost Scenario.url_Parse (Scenario.service 200 "[]")
            Scenario.context "/widgets/1" "" None)
     = Err (errors_New "Could not parse Json to map").
Proof.
  assert (Hstatus : 200 <= 300) by lia.
  assert (Hdecode : Decoder.Decode (mkBody "[]" None) = Ok (VSlice []))
    by (vm_compute; reflexivity).
  assert (HGet :
    received (Scenario.service 200 "[]")
      (fst (DoGet Scenario.url_Parse (Scenario.service 200 "[]")
              Scenario.context "/widgets/1" ""))
    = Some (http.mkResponse 200 (mkBody "[]" None))) by (vm_compute; reflexivity).
  assert (HPost :
    received (Scenario.service 200 "[]")
      (fst (DoPost Scenario.url_Parse (Scenario.service 200 "[]")
              Scenario.context "/widgets/1" "" None))
    = Some (http.mkResponse 200 (mkBody "[]" None))) by (vm_compute; reflexivity).
  split; [by repeat split |].
  destruct (DoGet_DoPost_non_object Scenario.url_Parse
              (Scenario.service 200 "[]") Scenario.context "/widgets/1" ""
              None (http.mkResponse 200 (mkBody "[]" None)) (VSlice [])
              Hstatus Hdecode eq_refl) as [HGet' HPost'].
  split; [exact (HGet' HGet) | exact (HPost' HPost)].
Defined.

(** A GET answered with 200 and a body that is not JSON, through the
    generic operation and through the typed one. *)
Lemma decode_failure_error_witness :
  (200 <= 300
   /\ received (Scenario.service 200 "<html>")
        (fst (doRequest Scenario.url_Parse (Scenario.service 200 "<html>")
                Scenario.context "/widgets" "GET" "" None))
        = Some (http.mkResponse 200 (mkBody "<html>" None))
   /\ Decoder.Decode (mkBody "<html>" None) = Err json_SyntaxError
   /\ received (Scenario.service 200 "<html>")
        (fst (DoRequestWithResponseParam Scenario.url_Parse
                (Scenario.service 200 "<html>") Scenario.context "/widgets" "GET"
                "" None (Some Scenario.array_destination)))
        = Some (http.mkResponse 200 (mkBody "<html>" None))
   /\ Decoder.DecodeInto Scenario.array_destination (mkBody "<html>" None)
      = Err json_SyntaxError)
  /\ snd (doRequest Scenario.url_Parse (Scenario.service 200 "<html>")
            Scenario.context "/widgets" "GET" "" None)
     = Err (APICallError "http://inventory/widgets" (Some 200) None
              (Errorf_w "Unable parse response payload: %w" json_SyntaxError))
  /\ snd (DoRequestWithResponseParam Scenario.url_Parse
            (Scenario.service 200 "<html>") Scenario.context "/widgets" "GET"
            "" None (Some Scenario.array_destination))
     = Err (APICallError "http://inventory/widgets" (Some 200) None
              (Errorf_w "Unable parse response payload: %w" json_SyntaxError)).
Proof.
  assert (Hstatus : 200 <= 300) by lia.
  assert (Hgeneric :
    received (Scenario.service 200 "<html>")
      (fst (doRequest Scenario.url_Parse (Scenario.service 200 "<html>")
              Scenario.context "/widgets" "GET" "" None))
    = Some (http.mkResponse 200 (mkBody "<html>" None)))
    by (vm_compute; reflexivity).
  assert (Hdecode : Decoder.Decode (mkBody "<html>" None) = Err json_SyntaxError)
    by (vm_compute; reflexivity).
  assert (Htyped :
    received (Scenario.service 200 "<html>")
      (fst (DoRequestWithResponseParam Scenario.url_Parse
              (Scenario.service 200 "<html>") Scenario.context "/widgets" "GET"
              "" None (Some Scenario.array_destination)))
    = Some (http.mkResponse 200 (mkBody "<html>" None)))
    by (vm_compute; reflexivity).
  assert (Hinto :
    Decoder.DecodeInto Scenario.array_destination (mkBody "<html>" None)
    = Err json_SyntaxError) by (vm_compute; reflexivity).
  split; [by repeat split |].
  destruct (decode_failure_error Scenario.url_Parse
              (Scenario.service 200 "<html>") Scenario.context "/widgets"
              "GET" "" None Scenario.array_destination
              (http.mkResponse 200 (mkBody "<html>" None)) json_SyntaxError
              Hstatus) as [Hgeneric' Htyped'].
  split; [exact (Hgeneric' Hgeneric Hdecode) | exact (Htyped' Htyped Hinto)].
Defined.

(** A DELETE through the typed operation, without destination, answered
    with 204 and an empty body. *)
Lemma nil_destination_skips_decode_witness :
  (received (Scenario.service 204 "")
     (fst (DoRequestWithResponseParam Scenario.url_Parse
             (Scenario.service 204 "") Scenario.context "/widgets/1" "DELETE" ""
             None None))
     = Some (http.mkResponse 204 (mkBody "" None))
   /\ 204 <= 300)
  /\ snd (DoRequestWithResponseParam Scenario.url_Parse
            (Scenario.service 204 "") Scenario.context "/widgets/1" "DELETE" ""
            None None) = Ok None
  /\ decodes (fst (DoRequestWithResponseParam Scenario.url_Parse
                     (Scenario.service 204 "") Scenario.context "/widgets/1"
                     "DELETE" "" None None)) = false.
Proof.
  assert (Htyped :
    received (Scenario.service 204 "")
      (fst (DoRequestWithResponseParam Scenario.url_Parse
              (Scenario.service 204 "") Scenario.context "/widgets/1" "DELETE" ""
              None None))
    = Some (http.mkResponse 204 (mkBody "" None))) by (vm_compute; reflexivity).
  assert (Hstatus : 204 <= 300) by lia.
  split; [by split |].
  exact (nil_destination_skips_decode _ _ _ _ _ _ _ _ Htyped Hstatus).
Defined.

(** A GET answered with the empty array. *)
Lemma DoGetList_empty_array_witness :
  (received (Scenario.service 200 "[]")
     (fst (DoGetList Scenario.url_Parse (Scenario.service 200 "[]")
             Scenario.context "/widgets" ""))
     = Some (http.mkResponse 200 (mkBody "[]" None))
   /\ 200 <= 300
   /\ Decoder.Decode (mkBody "[]" None) = Ok (VSlice []))
  /\ snd (DoGetList Scenario.url_Parse (Scenario.service 200 "[]")
            Scenario.context "/widgets" "") = Ok None.
Proof.
  assert (Hreceived :
    received (Scenario.service 200 "[]")
      (fst (DoGetList Scenario.url_Parse (Scenario.service 200 "[]")
              Scenario.context "/widgets" ""))
    = Some (http.mkResponse 200 (mkBody "[]" None))) by (vm_compute; reflexivity).
  assert (Hdecode : Decoder.Decode (mkBody "[]" None) = Ok (VSlice []))
    by (vm_compute; reflexivity).
  assert (Hstatus : 200 <= 300) by lia.
  split; [by repeat split |].
  exact (DoGetList_empty_array _ _ _ _ _ _ Hreceived Hstatus Hdecode).
Defined.

(** * Further properties of the client *)

(** ** Requests that are not answered *)

Lemma Set_lookup key value h k :
  http.Set_ key value h !! k =
    if decide (http.CanonicalMIMEHeaderKey key = k) then Some [value] else h !! k.
Proof. unfold http.Set_. apply lookup_insert. Qed.

Lemma Add_lookup key value h k :
  http.Add key value h !! k =
    if decide (http.CanonicalMIMEHeaderKey key = k)
    then Some (default [] (h !! http.CanonicalMIMEHeaderKey key) ++ [value])%list
    else h !! k.
Proof. unfold http.Add. apply lookup_insert. Qed.

(** The keys of the four headers, as the header map stores them. *)
Ltac canonical_keys :=
  change (http.CanonicalMIMEHeaderKey "Authorization") with "Authorization" in *;
  change (http.CanonicalMIMEHeaderKey "X-Client") with "X-Client" in *;
  change (http.CanonicalMIMEHeaderKey "X-Correlation-ID") with "X-Correlation-Id" in *;
  change (http.CanonicalMIMEHeaderKey "Content-Type") with "Content-Type" in *.

Lemma NewRequest_fields url_Parse method url body request :
  http.NewRequest url_Parse method url body = Ok request ->
  http.Method request = (if String.eqb method "" then "GET" else method)
  /\ http.URL request = url
  /\ http.Body request = body
  /\ http.Header request = ∅.
Proof.
  unfold http.NewRequest.
  destruct (negb _); [discriminate |].
  destruct (url_Parse url); [discriminate |].
  intros [= <-]. repeat split.
Qed.

(** Case analysis on every step of a request operation, the request
    being spelled out. *)
Ltac explore f :=
  unfold f, done, event, defer;
  repeat match goal with
  | |- context [match ?p with Some _ => _ | None => _ end] =>
      is_var p; destruct p
  | |- context [match json.Marshal ?p with _ => _ end] =>
      destruct (json.Marshal p) eqn:?
  | |- context [if negb (String.eqb ?t "") then _ else _] =>
      destruct (String.eqb t "") eqn:?; cbn [negb]
  | |- context [if String.prefix "Bearer" ?t then _ else _] =>
      destruct (String.prefix "Bearer" t) eqn:?
  | |- context [match http.NewRequest ?u ?m ?a ?b with _ => _ end] =>
      let Hnew := fresh "Hnew" in
      destruct (http.NewRequest u m a b) eqn:Hnew;
      [apply NewRequest_fields in Hnew as (? & ? & ? & ?) |]
  | |- context [match HTTPClient ?c ?r with _ => _ end] =>
      destruct (HTTPClient c r) eqn:?
  | |- context [if 300 <? ?s then _ else _] => destruct (300 <? s) eqn:?
  | |- context [match Decoder.Decode ?b with _ => _ end] =>
      destruct (Decoder.Decode b) eqn:?
  | |- context [match Decoder.DecodeInto ?o ?b with _ => _ end] =>
      destruct (Decoder.DecodeInto o b) eqn:?
  end;
  cbn [fst snd sent omap list_omap received decodes existsb app orb
       http.with_header http.Method http.URL http.Body http.Header].

(** The one request of a trace. *)
Ltac the_request H :=
  first [ by apply elem_of_nil in H
        | apply list_elem_of_singleton in H; subst;
          cbn [http.with_header http.Method http.URL http.Body http.Header] in * ].

Section Unanswered.

Variable url_Parse : string -> option GoError.
Variable apiClient : APIClient.
Variable context : ExecutionContext.
Variables url requestMethod rawToken : string.
Variable payload : option (gmap string GoValue).

Abbreviation apiURL := (BaseURL apiClient ++ url).
Abbreviation generic :=
  (doRequest url_Parse apiClient context url requestMethod rawToken payload).
Abbreviation typed out :=
  (DoRequestWithResponseParam url_Parse apiClient context url requestMethod
     rawToken payload out).

(** The typed operation hands to the transport what the generic one does. *)
Lemma typed_sent out : sent (fst (typed out)) = sent (fst generic).
Proof.
  unfold DoRequestWithResponseParam, doRequest, done, event, defer.
  destruct payload as [p |]; [destruct (json.Marshal p) |];
    cbn [fst snd sent omap list_omap];
    try reflexivity;
    (destruct (http.NewRequest _ _ _ _); cbn [fst snd sent omap list_omap];
     [| reflexivity];
     match goal with
     | |- context [HTTPClient ?c ?r] => destruct (HTTPClient c r)
     end; cbn [fst snd sent omap list_omap]; [| reflexivity];
     destruct (300 <? _); [reflexivity |];
     destruct out; [destruct (Decoder.DecodeInto _ _) |];
     destruct (Decoder.Decode _); reflexivity).
Qed.

(** X1: when the request cannot be built (the method is not a token, or the
    URL does not parse), both request operations return the error with the
    URL alone and the cause of [http.NewRequest], and nothing reaches the
    transport. *)
Theorem request_construction_failure out err :
  (forall p, payload = Some p -> exists bytes, json.Marshal p = Ok bytes) ->
  (forall body,
     http.NewRequest url_Parse requestMethod apiURL body = Err err) ->
  snd generic =
    Err (APICallError apiURL None None
           (Errorf_w "Unable to create HTTP request: %w" err))
  /\ snd (typed out) =
       Err (APICallError apiURL None None
              (Errorf_w "Unable to create HTTP request: %w" err))
  /\ sent (fst generic) = []
  /\ sent (fst (typed out)) = [].
Proof.
  intros Hmarshal Hnew.
  rewrite typed_sent.
  assert (Hgeneric :
    snd generic =
      Err (APICallError apiURL None None
             (Errorf_w "Unable to create HTTP request: %w" err))
    /\ sent (fst generic) = []).
  { unfold doRequest, done, event.
    destruct payload as [p |].
    - destruct (Hmarshal p eq_refl) as [bytes ->].
      rewrite Hnew. by split.
    - rewrite Hnew. by split. }
  destruct Hgeneric as [Hresult Hsent].
  repeat split; try assumption.
  unfold DoRequestWithResponseParam, done, event.
  destruct payload as [p |].
  - destruct (Hmarshal p eq_refl) as [bytes ->]. by rewrite Hnew.
  - by rewrite Hnew.
Qed.

(** X2: when the transport fails, both request operations return the error
    with the URL alone and the cause of the transport; the call ends
    there: it has built one request and handed it over, and there is no
    body to read, to decode or to close. *)
Theorem transport_failure out request err :
  request ∈ sent (fst generic) ->
  HTTPClient apiClient request = Err err ->
  generic =
    ([EvNewRequest requestMethod apiURL (http.Body request); EvDo request],
     Err (APICallError apiURL None None (Errorf_w "Unable to invoke API: %w" err)))
  /\ typed out =
       ([EvNewRequest requestMethod apiURL (http.Body request); EvDo request],
        Err (APICallError apiURL None None
               (Errorf_w "Unable to invoke API: %w" err))).
Proof.
  intros Hin Hdo. split.
  - revert Hin. explore doRequest; intros Hin; the_request Hin;
      unfold NewAPICallError; congruence.
  - rewrite <- (typed_sent out) in Hin. revert Hin.
    explore DoRequestWithResponseParam; intros Hin; the_request Hin;
      unfold NewAPICallError; congruence.
Qed.

(** ** The request that is sent *)

Lemma doRequest_target request :
  request ∈ sent (fst generic) ->
  http.URL request = apiURL
  /\ http.Method request =
       (if String.eqb requestMethod "" then "GET" else requestMethod)
  /\ match payload with
     | Some p => exists bytes,
         json.Marshal p = Ok bytes /\ http.Body request = Some bytes
     | None => http.Body request = None
     end.
Proof.
  explore doRequest; intros Hin; the_request Hin; repeat split; eauto.
Qed.

(** X3: a request that reaches the transport goes to the base URL followed by
    the path, joined as they are; it has the method of the call, GET
    standing for an empty one; its body is the JSON form of the payload,
    and it has none when the payload is nil. *)
Theorem request_target out request :
  request ∈ sent (fst generic) \/ request ∈ sent (fst (typed out)) ->
  http.URL request = BaseURL apiClient ++ url
  /\ http.Method request =
       (if String.eqb requestMethod "" then "GET" else requestMethod)
  /\ match payload with
     | Some p => exists bytes,
         json.Marshal p = Ok bytes /\ http.Body request = Some bytes
     | None => http.Body request = None
     end.
Proof.
  rewrite typed_sent. intros Hin. apply doRequest_target. tauto.
Qed.

(** X4: a request that reaches the transport carries the name of the
    client as [X-Client], the
    correlation identifier of the context as [X-Correlation-Id] and
    [application/json] as [Content-Type], with or without a body, and no
    header besides these three and [Authorization]. *)
Theorem request_headers out request :
  request ∈ sent (fst generic) \/ request ∈ sent (fst (typed out)) ->
  http.Header request !! "X-Client" = Some [AppName apiClient]
  /\ http.Header request !! "X-Correlation-Id" = Some [GetCorrelationID context]
  /\ http.Header request !! "Content-Type" = Some ["application/json"]
  /\ forall key,
       key <> "Authorization" -> key <> "X-Client" ->
       key <> "X-Correlation-Id" -> key <> "Content-Type" ->
       http.Header request !! key = None.
Proof.
  rewrite typed_sent. intros Hin. assert (Hin' : request ∈ sent (fst generic)) by tauto.
  clear Hin. revert Hin'.
  explore doRequest; intros Hin; the_request Hin;
    (split; [| split; [| split; [| intros key ? ? ? ?]]]);
    rewrite ?Set_lookup, ?Add_lookup; canonical_keys;
    repeat case_decide; try done;
    match goal with H : http.Header _ = ∅ |- _ => rewrite H end;
    apply lookup_empty.
Qed.

(** X5: the value of [Authorization], when there is one, is a single value
    that starts with [Bearer]; sent again as the token of a call, it goes
    out unchanged. *)
Theorem authorization_value out request values :
  request ∈ sent (fst generic) \/ request ∈ sent (fst (typed out)) ->
  http.Header request !! "Authorization" = Some values ->
  exists value,
    values = [value]
    /\ String.prefix "Bearer" value = true
    /\ forall request',
         request' ∈ sent (fst (doRequest url_Parse apiClient context url
                                  requestMethod value payload)) ->
         http.Header request' !! "Authorization" = Some [value].
Proof.
  rewrite typed_sent. intros Hin. assert (Hin' : request ∈ sent (fst generic)) by tauto.
  clear Hin. rewrite (doRequest_sent _ _ _ _ _ _ _ _ Hin').
  assert (Hagain : forall value,
    String.prefix "Bearer" value = true ->
    forall request',
      request' ∈ sent (fst (doRequest url_Parse apiClient context url
                               requestMethod value payload)) ->
      http.Header request' !! "Authorization" = Some [value]).
  { intros value Hprefix request' Hin.
    rewrite (doRequest_sent _ _ _ _ _ _ _ _ Hin). unfold bearer.
    rewrite Hprefix. by destruct value. }
  unfold bearer. destruct (String.eqb rawToken ""); [discriminate |].
  destruct (String.prefix "Bearer" rawToken) eqn:Hprefix; intros [= <-].
  - exists rawToken. eauto.
  - exists ("Bearer " ++ rawToken). split; [done |].
    assert (Hstarts : String.prefix "Bearer" ("Bearer " ++ rawToken) = true)
      by reflexivity.
    eauto.
Qed.

(** ** The course of a call *)

(** The typed operation gets the response the generic one gets. *)
Lemma typed_received out :
  received apiClient (fst (typed out)) = received apiClient (fst generic).
Proof. unfold received. by rewrite typed_sent. Qed.

Ltac trace_of_response :=
  try discriminate;
  match goal with
  | H : HTTPClient _ ?r = Ok _ |- _ =>
      rewrite H; intros [= <-]; exists r;
      split; [exact H |]; split; [reflexivity |];
      cbn [http.with_header http.Body app]; congruence
  | H : HTTPClient _ _ = Err _ |- _ => by rewrite H
  end.

Ltac no_close Hr :=
  first
    [ match goal with
      | H : HTTPClient _ _ = Ok _ |- _ => by rewrite H in Hr
      end
    | let H := fresh in
      intros H;
      repeat (apply elem_of_cons in H as [H | H]; [discriminate |]);
      by apply elem_of_nil in H ].

Lemma doRequest_trace response :
  received apiClient (fst generic) = Some response ->
  exists request,
    HTTPClient apiClient request = Ok response
    /\ sent (fst generic) = [request]
    /\ fst generic =
         [EvNewRequest requestMethod apiURL (http.Body request);
          EvDo request;
          if 300 <? http.StatusCode response then EvReadAll else EvDecode;
          EvClose].
Proof. explore doRequest; trace_of_response. Qed.

Lemma DoRequestWithResponseParam_trace out response :
  received apiClient (fst (typed out)) = Some response ->
  exists request,
    HTTPClient apiClient request = Ok response
    /\ sent (fst (typed out)) = [request]
    /\ fst (typed out) =
         ([EvNewRequest requestMethod apiURL (http.Body request); EvDo request]
          ++ (if 300 <? http.StatusCode response then [EvReadAll]
              else match out with Some _ => [EvDecode] | None => [] end)
          ++ [EvClose])%list.
Proof. explore DoRequestWithResponseParam; trace_of_response. Qed.

(** X6: a call that gets a response does four things, in this order: it
    builds the request, hands it to the transport, reads the body (as
    text when the status is above 300, through the decoder otherwise) and
    closes the body.  The typed operation without destination does not
    read the body of a success at all. *)
Theorem exchange_trace out response :
  received apiClient (fst generic) = Some response ->
  exists request,
    HTTPClient apiClient request = Ok response
    /\ fst generic =
         [EvNewRequest requestMethod (BaseURL apiClient ++ url) (http.Body request);
          EvDo request;
          if 300 <? http.StatusCode response then EvReadAll else EvDecode;
          EvClose]
    /\ fst (typed out) =
         ([EvNewRequest requestMethod (BaseURL apiClient ++ url) (http.Body request);
           EvDo request]
          ++ (if 300 <? http.StatusCode response then [EvReadAll]
              else match out with Some _ => [EvDecode] | None => [] end)
          ++ [EvClose])%list.
Proof.
  intros Hgeneric. pose proof Hgeneric as Htyped.
  rewrite <- (typed_received out) in Htyped.
  destruct (doRequest_trace _ Hgeneric) as (request & Hdo & Hsent & Htrace).
  destruct (DoRequestWithResponseParam_trace _ _ Htyped)
    as (request' & _ & Hsent' & Htrace').
  rewrite typed_sent, Hsent in Hsent'. injection Hsent' as <-.
  eauto.
Qed.

(** X7: a call hands at most one request to the transport, and it closes the
    body of a response exactly when it got one: never without a response,
    and always, whatever the status and the decoding, with one. *)
Theorem one_request_one_close out :
  (List.length (sent (fst generic)) <= 1)%nat
  /\ (List.length (sent (fst (typed out))) <= 1)%nat
  /\ (EvClose ∈ fst generic <-> is_Some (received apiClient (fst generic)))
  /\ (EvClose ∈ fst (typed out)
      <-> is_Some (received apiClient (fst (typed out)))).
Proof.
  assert (Hclose : forall trace : list Event,
    (forall response, received apiClient trace = Some response ->
                      last trace = Some EvClose) ->
    (received apiClient trace = None -> EvClose ∉ trace) ->
    EvClose ∈ trace <-> is_Some (received apiClient trace)).
  { intros trace Hsome Hnone. destruct (received apiClient trace) eqn:Hr.
    - split; [eauto |]. intros _.
      specialize (Hsome _ eq_refl). by apply last_Some_elem_of in Hsome.
    - split; [by intros ?%Hnone | by intros [? ?]]. }
  split; [| split; [| split]].
  - explore doRequest; cbn; lia.
  - explore DoRequestWithResponseParam; cbn; lia.
  - apply Hclose.
    + intros response Hr. destruct (doRequest_trace _ Hr) as (? & _ & _ & ->).
      reflexivity.
    + explore doRequest; intros Hr; no_close Hr.
  - apply Hclose.
    + intros response Hr.
      destruct (DoRequestWithResponseParam_trace _ _ Hr) as (? & _ & _ & ->).
      rewrite !app_assoc. apply last_snoc.
    + explore DoRequestWithResponseParam; intros Hr; no_close Hr.
Qed.

(** ** The errors of a call *)

Ltac error_of_call :=
  let Herr := fresh "Herr" in
  intros Herr; try discriminate; injection Herr as <-;
  repeat match goal with
  | H : HTTPClient _ _ = _ |- _ => rewrite H; clear H
  end;
  cbn [fmap option_fmap option_map];
  eexists _, _; (split; [reflexivity |]);
  (split;
   [ intros [? ?];
     first [ discriminate
           | eexists; split; [reflexivity | by apply Z.ltb_lt] ]
   | let Hr := fresh "Hr" in
     intros (? & Hr & ?);
     first [ discriminate
           | injection Hr as <-;
             first [ by eexists
                   | match goal with
                     | H : (300 <? _) = false |- _ => apply Z.ltb_ge in H; lia
                     end ] ] ]).

Lemma doRequest_error e :
  snd generic = Err e ->
  exists text cause,
    e = APICallError apiURL
          (http.StatusCode <$> received apiClient (fst generic)) text cause
    /\ (is_Some text <->
        exists response,
          received apiClient (fst generic) = Some response
          /\ 300 < http.StatusCode response).
Proof.
  explore doRequest; error_of_call.
Qed.

Lemma DoRequestWithResponseParam_error out e :
  snd (typed out) = Err e ->
  exists text cause,
    e = APICallError apiURL
          (http.StatusCode <$> received apiClient (fst (typed out))) text cause
    /\ (is_Some text <->
        exists response,
          received apiClient (fst (typed out)) = Some response
          /\ 300 < http.StatusCode response).
Proof.
  explore DoRequestWithResponseParam; error_of_call.
Qed.

(** X8: every error of a request operation is the structured error with the
    URL of the call.  It has a status code exactly when the call got a
    response, the status of that response; it has a body text exactly when
    that status is above 300. *)
Theorem error_shape out e :
  snd generic = Err e \/ snd (typed out) = Err e ->
  exists text cause,
    e = APICallError (BaseURL apiClient ++ url)
          (http.StatusCode <$> received apiClient (fst generic)) text cause
    /\ (is_Some text <->
        exists response,
          received apiClient (fst generic) = Some response
          /\ 300 < http.StatusCode response).
Proof.
  intros [Herr | Herr].
  - by apply doRequest_error.
  - rewrite <- (typed_received out). by apply DoRequestWithResponseParam_error.
Qed.

(** X9: the two request operations differ in the decoding only.  For
    every call they hand the same request to the transport, get the same
    response and do the same things in the same order, the decoding step
    apart; and one of them fails before it decodes (the payload, the
    request, the transport, a status above 300) exactly when the other
    does, with the same error. *)
Theorem typed_as_generic out :
  sent (fst (typed out)) = sent (fst generic)
  /\ received apiClient (fst (typed out)) = received apiClient (fst generic)
  /\ apart_from_decoding (fst (typed out)) = apart_from_decoding (fst generic)
  /\ forall e,
       snd generic = Err e /\ decodes (fst generic) = false
       <-> snd (typed out) = Err e /\ decodes (fst (typed out)) = false.
Proof.
  split; [apply typed_sent |]. split; [apply typed_received |].
  unfold doRequest, DoRequestWithResponseParam, done, event, defer,
    apart_from_decoding.
  destruct payload as [p |]; [destruct (json.Marshal p) |];
    cbn [fst snd decodes existsb orb List.filter app]; try (split; [reflexivity | intros ?; split; intros [[= <-] ?]; by split]);
    (destruct (http.NewRequest _ _ _ _);
     cbn [fst snd decodes existsb orb List.filter app]; [| split; [reflexivity | intros ?; split; intros [[= <-] ?]; by split]];
     match goal with
     | |- context [HTTPClient ?c ?r] => destruct (HTTPClient c r)
     end; cbn [fst snd decodes existsb orb List.filter app]; [| split; [reflexivity | intros ?; split; intros [[= <-] ?]; by split]];
     destruct (300 <? _); cbn [fst snd decodes existsb orb List.filter app];
     [split; [reflexivity | intros ?; split; intros [[= <-] ?]; by split] |];
     destruct out as [destination |];
     [destruct (Decoder.DecodeInto _ _) |];
     destruct (Decoder.Decode _);
     cbn [fst snd decodes existsb orb List.filter app];
     (split; [reflexivity |]);
     intros ?; split; intros [? ?]; discriminate).
Qed.

End Unanswered.

(** ** The four operations, on every response *)

Lemma DoGetList_range_objects maps :
  forall collected,
    DoGetList_range collected (VMap <$> maps) = Ok (foldl append collected maps).
Proof.
  induction maps as [| m maps IH]; intros collected; [reflexivity |].
  cbn [fmap list_fmap DoGetList_range assert_map foldl]. apply IH.
Qed.

Lemma append_all maps :
  forall collected : list (gmap string GoValue),
    foldl append (Some collected) maps = Some (collected ++ maps)%list.
Proof.
  induction maps as [| m maps IH]; intros collected; cbn [foldl append].
  - by rewrite app_nil_r.
  - rewrite IH. by rewrite <- app_assoc.
Qed.

Lemma DoGetList_range_inv elements :
  forall collected result,
    DoGetList_range collected elements = Ok result ->
    exists maps,
      elements = VMap <$> maps /\ result = foldl append collected maps.
Proof.
  induction elements as [| obj rest IH]; intros collected result.
  - intros [= <-]. by exists [].
  - cbn [DoGetList_range]. destruct obj; cbn [assert_map]; try discriminate.
    intros (maps & -> & ->)%IH. by eexists (_ :: maps).
Qed.

Section Responses.

Variable url_Parse : string -> option GoError.
Variable apiClient : APIClient.
Variable context : ExecutionContext.
Variables requestString rawToken : string.

Abbreviation apiURL := (BaseURL apiClient ++ requestString).

(** What an operation returns for the response it got, its status being
    at most 300. *)
Ltac of_response H Hstatus :=
  cbn [fst snd] in H |- *;
  destruct (doRequest_received _ _ _ _ _ _ _ _ H) as [-> _];
  rewrite (proj2 (Z.ltb_ge _ _) Hstatus).

(** X10: when the response is a success and its body decodes to an object,
    [DoGet] and [DoPost] return that object, with all its members, and no
    error. *)
Theorem DoGet_DoPost_object payload response members :
  http.StatusCode response <= 300 ->
  Decoder.Decode (http.ResponseBody response) = Ok (VMap members) ->
  (received apiClient
     (fst (DoGet url_Parse apiClient context requestString rawToken))
     = Some response ->
   snd (DoGet url_Parse apiClient context requestString rawToken) = Ok members)
  /\ (received apiClient
        (fst (DoPost url_Parse apiClient context requestString rawToken payload))
        = Some response ->
      snd (DoPost url_Parse apiClient context requestString rawToken payload)
        = Ok members).
Proof.
  intros Hstatus Hdecode. split; intros Hreceived.
  - rewrite DoGet_doRequest in Hreceived |- *. of_response Hreceived Hstatus.
    by rewrite Hdecode.
  - rewrite DoPost_doRequest in Hreceived |- *. of_response Hreceived Hstatus.
    by rewrite Hdecode.
Qed.

(** X11: when the response is a success and its body decodes to a non-empty
    array of objects, [DoGetList] returns these objects, all of them and
    in the order of the array. *)
Theorem DoGetList_objects response maps :
  received apiClient
    (fst (DoGetList url_Parse apiClient context requestString rawToken))
    = Some response ->
  http.StatusCode response <= 300 ->
  Decoder.Decode (http.ResponseBody response) = Ok (VSlice (VMap <$> maps)) ->
  maps <> [] ->
  snd (DoGetList url_Parse apiClient context requestString rawToken)
    = Ok (Some maps).
Proof.
  intros Hreceived Hstatus Hdecode Hmaps.
  rewrite DoGetList_doRequest in Hreceived |- *. of_response Hreceived Hstatus.
  rewrite Hdecode. cbn [assert_slice]. rewrite DoGetList_range_objects.
  destruct maps as [| m maps]; [done |].
  cbn [foldl append]. by rewrite append_all.
Qed.

(** X12: whatever [DoGetList] returns without error is the array of
    the response: the body decoded to an array of objects and the slice
    holds them all, in order; the slice is nil exactly when the array is
    empty. *)
Theorem DoGetList_result response result :
  received apiClient
    (fst (DoGetList url_Parse apiClient context requestString rawToken))
    = Some response ->
  snd (DoGetList url_Parse apiClient context requestString rawToken) = Ok result ->
  http.StatusCode response <= 300
  /\ Decoder.Decode (http.ResponseBody response)
     = Ok (VSlice (VMap <$> default [] result))
  /\ (result = None <-> default [] result = []).
Proof.
  intros Hreceived.
  rewrite DoGetList_doRequest in Hreceived |- *. cbn [fst snd] in *.
  destruct (doRequest_received _ _ _ _ _ _ _ _ Hreceived) as [-> _].
  destruct (300 <? http.StatusCode response) eqn:Hstatus; [discriminate |].
  apply Z.ltb_ge in Hstatus.
  destruct (Decoder.Decode _) as [v |]; [| discriminate].
  destruct v; cbn [assert_slice]; try discriminate.
  intros (maps & -> & ->)%DoGetList_range_inv.
  split; [done |].
  destruct maps as [| m maps]; cbn [foldl append default].
  - done.
  - rewrite append_all. cbn [default app]. done.
Qed.

(** X13: when the response is a success and its body decodes to a value that
    is not an array (an object, a string, a number, a boolean or null),
    [DoGetList] returns the error of a shape mismatch. *)
Theorem DoGetList_not_array response v :
  received apiClient
    (fst (DoGetList url_Parse apiClient context requestString rawToken))
    = Some response ->
  http.StatusCode response <= 300 ->
  Decoder.Decode (http.ResponseBody response) = Ok v ->
  (forall elements, v <> VSlice elements) ->
  snd (DoGetList url_Parse apiClient context requestString rawToken)
    = Err (errors_New "Could not parse Json to map").
Proof.
  intros Hreceived Hstatus Hdecode Hv.
  rewrite DoGetList_doRequest in Hreceived |- *. of_response Hreceived Hstatus.
  rewrite Hdecode. destruct v; try reflexivity. by destruct (Hv l).
Qed.

(** X14: when the status of the response is above 300, each of the four
    operations returns the error that its call of [doRequest] returns, as
    it is: the error of a non-success code, with the URL, the status and
    the body text of [doRequest].  The shape of the body plays no part. *)
Theorem operations_failure payload response :
  300 < http.StatusCode response ->
  (received apiClient
     (fst (DoGet url_Parse apiClient context requestString rawToken))
     = Some response ->
   exists text,
     snd (doRequest url_Parse apiClient context requestString http.MethodGet
            rawToken None)
     = Err (APICallError apiURL (Some (http.StatusCode response)) (Some text)
              (Errorf_v "Received non-success code: %v" (http.StatusCode response)))
     /\ DoGet url_Parse apiClient context requestString rawToken
        = (fst (doRequest url_Parse apiClient context requestString
                  http.MethodGet rawToken None),
           Err (APICallError apiURL (Some (http.StatusCode response)) (Some text)
                  (Errorf_v "Received non-success code: %v"
                     (http.StatusCode response)))))
  /\ (received apiClient
        (fst (DoGetList url_Parse apiClient context requestString rawToken))
        = Some response ->
      exists text,
        snd (doRequest url_Parse apiClient context requestString http.MethodGet
               rawToken None)
        = Err (APICallError apiURL (Some (http.StatusCode response)) (Some text)
                 (Errorf_v "Received non-success code: %v"
                    (http.StatusCode response)))
        /\ DoGetList url_Parse apiClient context requestString rawToken
           = (fst (doRequest url_Parse apiClient context requestString
                     http.MethodGet rawToken None),
              Err (APICallError apiURL (Some (http.StatusCode response)) (Some text)
                     (Errorf_v "Received non-success code: %v"
                        (http.StatusCode response)))))
  /\ (received apiClient
        (fst (DoPost url_Parse apiClient context requestString rawToken payload))
        = Some response ->
      exists text,
        snd (doRequest url_Parse apiClient context requestString http.MethodPost
               rawToken payload)
        = Err (APICallError apiURL (Some (http.StatusCode response)) (Some text)
                 (Errorf_v "Received non-success code: %v"
                    (http.StatusCode response)))
        /\ DoPost url_Parse apiClient context requestString rawToken payload
           = (fst (doRequest url_Parse apiClient context requestString
                     http.MethodPost rawToken payload),
              Err (APICallError apiURL (Some (http.StatusCode response)) (Some text)
                     (Errorf_v "Received non-success code: %v"
                        (http.StatusCode response)))))
  /\ (received apiClient
        (fst (DoDelete url_Parse apiClient context requestString rawToken payload))
        = Some response ->
      exists text,
        snd (doRequest url_Parse apiClient context requestString
               http.MethodDelete rawToken payload)
        = Err (APICallError apiURL (Some (http.StatusCode response)) (Some text)
                 (Errorf_v "Received non-success code: %v"
                    (http.StatusCode response)))
        /\ DoDelete url_Parse apiClient context requestString rawToken payload
           = (fst (doRequest url_Parse apiClient context requestString
                     http.MethodDelete rawToken payload),
              Err (APICallError apiURL (Some (http.StatusCode response)) (Some text)
                     (Errorf_v "Received non-success code: %v"
                        (http.StatusCode response))))).
Proof.
  intros Hstatus. apply Z.ltb_lt in Hstatus.
  split; [| split; [| split]]; intros Hreceived.
  - rewrite DoGet_doRequest in Hreceived |- *. cbn [fst snd] in *.
    destruct (doRequest_received _ _ _ _ _ _ _ _ Hreceived) as [-> _].
    rewrite Hstatus. eauto.
  - rewrite DoGetList_doRequest in Hreceived |- *. cbn [fst snd] in *.
    destruct (doRequest_received _ _ _ _ _ _ _ _ Hreceived) as [-> _].
    rewrite Hstatus. eauto.
  - rewrite DoPost_doRequest in Hreceived |- *. cbn [fst snd] in *.
    destruct (doRequest_received _ _ _ _ _ _ _ _ Hreceived) as [-> _].
    rewrite Hstatus. eauto.
  - rewrite DoDelete_doRequest in Hreceived |- *. cbn [fst snd] in *.
    destruct (doRequest_received _ _ _ _ _ _ _ _ Hreceived) as [-> _].
    rewrite Hstatus. eauto.
Qed.


End Responses.

(** ** The further properties at work *)

(** A GET whose method holds a space. *)
Lemma request_construction_failure_witness :
  ((forall p, @None (gmap string GoValue) = Some p ->
              exists bytes, json.Marshal p = Ok bytes)
   /\ forall body,
        http.NewRequest Scenario.url_Parse "GET widgets"
          ("http://inventory" ++ "/widgets") body
        = Err (http_InvalidMethod "GET widgets"))
  /\ snd (doRequest Scenario.url_Parse (Scenario.service 200 "{}")
            Scenario.context "/widgets" "GET widgets" "" None)
     = Err (APICallError "http://inventory/widgets" None None
              (Errorf_w "Unable to create HTTP request: %w"
                 (http_InvalidMethod "GET widgets")))
  /\ sent (fst (doRequest Scenario.url_Parse (Scenario.service 200 "{}")
                  Scenario.context "/widgets" "GET widgets" "" None)) = [].
Proof.
  assert (Hmarshal : forall p, @None (gmap string GoValue) = Some p ->
                               exists bytes, json.Marshal p = Ok bytes)
    by discriminate.
  assert (Hnew : forall body,
    http.NewRequest Scenario.url_Parse "GET widgets"
      ("http://inventory" ++ "/widgets") body
    = Err (http_InvalidMethod "GET widgets")) by reflexivity.
  split; [by split |].
  destruct (request_construction_failure Scenario.url_Parse
              (Scenario.service 200 "{}") Scenario.context "/widgets"
              "GET widgets" "" None None _ Hmarshal Hnew)
    as (Hresult & _ & Hsent & _).
  split; [exact Hresult | exact Hsent].
Defined.

(** A GET to a service that cannot be reached. *)
Lemma transport_failure_witness :
  (Scenario.anonymous
     ∈ sent (fst (doRequest Scenario.url_Parse Scenario.unreachable
                    Scenario.context "/widgets" "GET" "" None))
   /\ HTTPClient Scenario.unreachable Scenario.anonymous
      = Err (OtherError "connection refused"))
  /\ doRequest Scenario.url_Parse Scenario.unreachable Scenario.context
       "/widgets" "GET" "" None
     = ([EvNewRequest "GET" "http://inventory/widgets" None;
         EvDo Scenario.anonymous],
        Err (APICallError "http://inventory/widgets" None None
               (Errorf_w "Unable to invoke API: %w"
                  (OtherError "connection refused")))).
Proof.
  assert (Hin :
    Scenario.anonymous
      ∈ sent (fst (doRequest Scenario.url_Parse Scenario.unreachable
                     Scenario.context "/widgets" "GET" "" None))).
  { vm_compute. constructor. }
  assert (Hdo : HTTPClient Scenario.unreachable Scenario.anonymous
                = Err (OtherError "connection refused")) by reflexivity.
  split; [by split |].
  exact (proj1 (transport_failure Scenario.url_Parse Scenario.unreachable
                  Scenario.context "/widgets" "GET" "" None None _ _ Hin Hdo)).
Defined.

(** A GET of [/widgets] without token. *)
Lemma request_target_witness :
  Scenario.anonymous
    ∈ sent (fst (doRequest Scenario.url_Parse (Scenario.service 200 "{}")
                   Scenario.context "/widgets" "" "" None))
  /\ http.URL Scenario.anonymous = "http://inventory" ++ "/widgets"
  /\ http.Method Scenario.anonymous = "GET"
  /\ http.Body Scenario.anonymous = None.
Proof.
  assert (Hin :
    Scenario.anonymous
      ∈ sent (fst (doRequest Scenario.url_Parse (Scenario.service 200 "{}")
                     Scenario.context "/widgets" "" "" None))).
  { vm_compute. constructor. }
  split; [exact Hin |].
  exact (request_target Scenario.url_Parse (Scenario.service 200 "{}")
           Scenario.context "/widgets" "" "" None None _ (or_introl Hin)).
Defined.

Lemma request_headers_witness :
  Scenario.anonymous
    ∈ sent (fst (doRequest Scenario.url_Parse (Scenario.service 200 "{}")
                   Scenario.context "/widgets" "GET" "" None))
  /\ http.Header Scenario.anonymous !! "X-Client" = Some ["orders"]
  /\ http.Header Scenario.anonymous !! "X-Correlation-Id" = Some ["c-1"]
  /\ http.Header Scenario.anonymous !! "Content-Type" = Some ["application/json"].
Proof.
  assert (Hin :
    Scenario.anonymous
      ∈ sent (fst (doRequest Scenario.url_Parse (Scenario.service 200 "{}")
                     Scenario.context "/widgets" "GET" "" None))).
  { vm_compute. constructor. }
  split; [exact Hin |].
  destruct (request_headers Scenario.url_Parse (Scenario.service 200 "{}")
              Scenario.context "/widgets" "GET" "" None None _ (or_introl Hin))
    as (Hclient & Hcorrelation & Htype & _).
  split; [exact Hclient | split; [exact Hcorrelation | exact Htype]].
Defined.

(** A GET with the token [secret]. *)
Lemma authorization_value_witness :
  (Scenario.authorized
     ∈ sent (fst (doRequest Scenario.url_Parse (Scenario.service 200 "{}")
                    Scenario.context "/widgets" "GET" "secret" None))
   /\ http.Header Scenario.authorized !! "Authorization" = Some ["Bearer secret"])
  /\ exists value,
       ["Bearer secret"] = [value] /\ String.prefix "Bearer" value = true.
Proof.
  assert (Hin :
    Scenario.authorized
      ∈ sent (fst (doRequest Scenario.url_Parse (Scenario.service 200 "{}")
                     Scenario.context "/widgets" "GET" "secret" None))).
  { vm_compute. constructor. }
  assert (Hvalue :
    http.Header Scenario.authorized !! "Authorization" = Some ["Bearer secret"])
    by (vm_compute; reflexivity).
  split; [by split |].
  destruct (authorization_value Scenario.url_Parse (Scenario.service 200 "{}")
              Scenario.context "/widgets" "GET" "secret" None None _ _
              (or_introl Hin) Hvalue) as (value & Hone & Hprefix & _).
  exists value. by split.
Defined.

(** A GET answered with 200 and an object. *)
Lemma exchange_trace_witness :
  received (Scenario.service 200 "{}")
    (fst (doRequest Scenario.url_Parse (Scenario.service 200 "{}")
            Scenario.context "/widgets" "GET" "" None))
    = Some (http.mkResponse 200 (mkBody "{}" None))
  /\ exists request,
       fst (doRequest Scenario.url_Parse (Scenario.service 200 "{}")
              Scenario.context "/widgets" "GET" "" None)
       = [EvNewRequest "GET" ("http://inventory" ++ "/widgets") (http.Body request);
          EvDo request; EvDecode; EvClose].
Proof.
  assert (Hreceived :
    received (Scenario.service 200 "{}")
      (fst (doRequest Scenario.url_Parse (Scenario.service 200 "{}")
              Scenario.context "/widgets" "GET" "" None))
    = Some (http.mkResponse 200 (mkBody "{}" None))) by (vm_compute; reflexivity).
  split; [exact Hreceived |].
  destruct (exchange_trace Scenario.url_Parse (Scenario.service 200 "{}")
              Scenario.context "/widgets" "GET" "" None None _ Hreceived)
    as (request & _ & Htrace & _).
  exists request. exact Htrace.
Defined.

(** A GET answered with 503. *)
Lemma error_shape_witness :
  snd (doRequest Scenario.url_Parse (Scenario.service 503 "busy")
         Scenario.context "/widgets" "GET" "" None)
    = Err (APICallError "http://inventory/widgets" (Some 503) (Some "")
             (Errorf_v "Received non-success code: %v" 503))
  /\ exists text cause,
       APICallError "http://inventory/widgets" (Some 503) (Some "")
         (Errorf_v "Received non-success code: %v" 503)
       = APICallError ("http://inventory" ++ "/widgets")
           (http.StatusCode <$>
              received (Scenario.service 503 "busy")
                (fst (doRequest Scenario.url_Parse (Scenario.service 503 "busy")
                        Scenario.context "/widgets" "GET" "" None)))
           text cause.
Proof.
  assert (Herr :
    snd (doRequest Scenario.url_Parse (Scenario.service 503 "busy")
           Scenario.context "/widgets" "GET" "" None)
    = Err (APICallError "http://inventory/widgets" (Some 503) (Some "")
             (Errorf_v "Received non-success code: %v" 503)))
    by (vm_compute; reflexivity).
  split; [exact Herr |].
  destruct (error_shape Scenario.url_Parse (Scenario.service 503 "busy")
              Scenario.context "/widgets" "GET" "" None None _ (or_introl Herr))
    as (text & cause & Heq & _).
  exists text, cause. exact Heq.
Defined.

Lemma typed_as_generic_witness :
  (snd (doRequest Scenario.url_Parse (Scenario.service 503 "busy")
          Scenario.context "/widgets" "GET" "" None)
     = Err (APICallError "http://inventory/widgets" (Some 503) (Some "")
              (Errorf_v "Received non-success code: %v" 503))
   /\ decodes (fst (doRequest Scenario.url_Parse (Scenario.service 503 "busy")
                      Scenario.context "/widgets" "GET" "" None)) = false)
  /\ snd (DoRequestWithResponseParam Scenario.url_Parse
            (Scenario.service 503 "busy") Scenario.context "/widgets" "GET" ""
            None (Some Scenario.array_destination))
     = Err (APICallError "http://inventory/widgets" (Some 503) (Some "")
              (Errorf_v "Received non-success code: %v" 503))
  /\ apart_from_decoding
       (fst (DoRequestWithResponseParam Scenario.url_Parse
               (Scenario.service 200 "[]") Scenario.context "/widgets" "GET" ""
               None None))
     = apart_from_decoding
         (fst (doRequest Scenario.url_Parse (Scenario.service 200 "[]")
                 Scenario.context "/widgets" "GET" "" None)).
Proof.
  assert (Herr :
    snd (doRequest Scenario.url_Parse (Scenario.service 503 "busy")
           Scenario.context "/widgets" "GET" "" None)
    = Err (APICallError "http://inventory/widgets" (Some 503) (Some "")
             (Errorf_v "Received non-success code: %v" 503)))
    by (vm_compute; reflexivity).
  assert (Hdecodes :
    decodes (fst (doRequest Scenario.url_Parse (Scenario.service 503 "busy")
                    Scenario.context "/widgets" "GET" "" None)) = false)
    by (vm_compute; reflexivity).
  split; [by split |]. split.
  - destruct (typed_as_generic Scenario.url_Parse (Scenario.service 503 "busy")
                Scenario.context "/widgets" "GET" "" None
                (Some Scenario.array_destination)) as (_ & _ & _ & Hsame).
    exact (proj1 (proj1 (Hsame _) (conj Herr Hdecodes))).
  - exact (proj1 (proj2 (proj2
      (typed_as_generic Scenario.url_Parse (Scenario.service 200 "[]")
         Scenario.context "/widgets" "GET" "" None None)))).
Defined.

(** A GET answered with 200 and the empty object. *)
Lemma DoGet_DoPost_object_witness :
  (200 <= 300
   /\ Decoder.Decode (mkBody "{}" None) = Ok (VMap ∅)
   /\ received (Scenario.service 200 "{}")
        (fst (DoGet Scenario.url_Parse (Scenario.service 200 "{}")
                Scenario.context "/widgets/1" ""))
        = Some (http.mkResponse 200 (mkBody "{}" None)))
  /\ snd (DoGet Scenario.url_Parse (Scenario.service 200 "{}")
            Scenario.context "/widgets/1" "") = Ok ∅.
Proof.
  assert (Hstatus : 200 <= 300) by lia.
  assert (Hdecode : Decoder.Decode (mkBody "{}" None) = Ok (VMap ∅))
    by (vm_compute; reflexivity).
  assert (Hreceived :
    received (Scenario.service 200 "{}")
      (fst (DoGet Scenario.url_Parse (Scenario.service 200 "{}")
              Scenario.context "/widgets/1" ""))
    = Some (http.mkResponse 200 (mkBody "{}" None))) by (vm_compute; reflexivity).
  split; [by repeat split |].
  exact (proj1 (DoGet_DoPost_object Scenario.url_Parse (Scenario.service 200 "{}")
                  Scenario.context "/widgets/1" "" None
                  (http.mkResponse 200 (mkBody "{}" None)) ∅ Hstatus Hdecode)
           Hreceived).
Defined.

(** A GET answered with 200 and two widgets. *)
Lemma DoGetList_objects_witness :
  (received (Scenario.service 200 (Scenario.text "[{'id':1},{'id':2}]"))
     (fst (DoGetList Scenario.url_Parse
             (Scenario.service 200 (Scenario.text "[{'id':1},{'id':2}]"))
             Scenario.context "/widgets" ""))
     = Some (http.mkResponse 200
               (mkBody (Scenario.text "[{'id':1},{'id':2}]") None))
   /\ 200 <= 300
   /\ Decoder.Decode (mkBody (Scenario.text "[{'id':1},{'id':2}]") None)
      = Ok (VSlice (VMap <$> Scenario.widgets))
   /\ Scenario.widgets <> [])
  /\ snd (DoGetList Scenario.url_Parse
            (Scenario.service 200 (Scenario.text "[{'id':1},{'id':2}]"))
            Scenario.context "/widgets" "")
     = Ok (Some Scenario.widgets).
Proof.
  assert (Hreceived :
    received (Scenario.service 200 (Scenario.text "[{'id':1},{'id':2}]"))
      (fst (DoGetList Scenario.url_Parse
              (Scenario.service 200 (Scenario.text "[{'id':1},{'id':2}]"))
              Scenario.context "/widgets" ""))
    = Some (http.mkResponse 200
              (mkBody (Scenario.text "[{'id':1},{'id':2}]") None)))
    by (vm_compute; reflexivity).
  assert (Hstatus : 200 <= 300) by lia.
  assert (Hdecode :
    Decoder.Decode (mkBody (Scenario.text "[{'id':1},{'id':2}]") None)
    = Ok (VSlice (VMap <$> Scenario.widgets))) by (vm_compute; reflexivity).
  assert (Hmaps : Scenario.widgets <> []) by discriminate.
  split; [by repeat split |].
  exact (DoGetList_objects Scenario.url_Parse _ Scenario.context "/widgets" ""
           _ _ Hreceived Hstatus Hdecode Hmaps).
Defined.

Lemma DoGetList_result_witness :
  (received (Scenario.service 200 (Scenario.text "[{'id':1},{'id':2}]"))
     (fst (DoGetList Scenario.url_Parse
             (Scenario.service 200 (Scenario.text "[{'id':1},{'id':2}]"))
             Scenario.context "/widgets" ""))
     = Some (http.mkResponse 200
               (mkBody (Scenario.text "[{'id':1},{'id':2}]") None))
   /\ snd (DoGetList Scenario.url_Parse
             (Scenario.service 200 (Scenario.text "[{'id':1},{'id':2}]"))
             Scenario.context "/widgets" "")
      = Ok (Some Scenario.widgets))
  /\ Decoder.Decode (mkBody (Scenario.text "[{'id':1},{'id':2}]") None)
     = Ok (VSlice (VMap <$> Scenario.widgets)).
Proof.
  assert (Hreceived :
    received (Scenario.service 200 (Scenario.text "[{'id':1},{'id':2}]"))
      (fst (DoGetList Scenario.url_Parse
              (Scenario.service 200 (Scenario.text "[{'id':1},{'id':2}]"))
              Scenario.context "/widgets" ""))
    = Some (http.mkResponse 200
              (mkBody (Scenario.text "[{'id':1},{'id':2}]") None)))
    by (vm_compute; reflexivity).
  assert (Hresult :
    snd (DoGetList Scenario.url_Parse
           (Scenario.service 200 (Scenario.text "[{'id':1},{'id':2}]"))
           Scenario.context "/widgets" "")
    = Ok (Some Scenario.widgets)) by (vm_compute; reflexivity).
  split; [by split |].
  exact (proj1 (proj2
    (DoGetList_result Scenario.url_Parse _ Scenario.context "/widgets" ""
       _ _ Hreceived Hresult))).
Defined.

(** A GET of a list answered with 200 and an object. *)
Lemma DoGetList_not_array_witness :
  (received (Scenario.service 200 "{}")
     (fst (DoGetList Scenario.url_Parse (Scenario.service 200 "{}")
             Scenario.context "/widgets" ""))
     = Some (http.mkResponse 200 (mkBody "{}" None))
   /\ 200 <= 300
   /\ Decoder.Decode (mkBody "{}" None) = Ok (VMap ∅)
   /\ forall elements, VMap ∅ <> VSlice elements)
  /\ snd (DoGetList Scenario.url_Parse (Scenario.service 200 "{}")
            Scenario.context "/widgets" "")
     = Err (errors_New "Could not parse Json to map").
Proof.
  assert (Hreceived :
    received (Scenario.service 200 "{}")
      (fst (DoGetList Scenario.url_Parse (Scenario.service 200 "{}")
              Scenario.context "/widgets" ""))
    = Some (http.mkResponse 200 (mkBody "{}" None))) by (vm_compute; reflexivity).
  assert (Hstatus : 200 <= 300) by lia.
  assert (Hdecode : Decoder.Decode (mkBody "{}" None) = Ok (VMap ∅))
    by (vm_compute; reflexivity).
  assert (Hv : forall elements, VMap ∅ <> VSlice elements) by discriminate.
  split; [by repeat split |].
  exact (DoGetList_not_array Scenario.url_Parse _ Scenario.context "/widgets" ""
           _ _ Hreceived Hstatus Hdecode Hv).
Defined.

(** A DELETE answered with 404. *)
Lemma operations_failure_witness :
  (300 < 404
   /\ received (Scenario.service 404 "gone")
        (fst (DoDelete Scenario.url_Parse (Scenario.service 404 "gone")
                Scenario.context "/widgets/1" "" None))
        = Some (http.mkResponse 404 (mkBody "gone" None)))
  /\ exists text,
       snd (doRequest Scenario.url_Parse (Scenario.service 404 "gone")
              Scenario.context "/widgets/1" "DELETE" "" None)
       = Err (APICallError ("http://inventory" ++ "/widgets/1") (Some 404)
                (Some text) (Errorf_v "Received non-success code: %v" 404))
       /\ DoDelete Scenario.url_Parse (Scenario.service 404 "gone")
            Scenario.context "/widgets/1" "" None
          = (fst (doRequest Scenario.url_Parse (Scenario.service 404 "gone")
                    Scenario.context "/widgets/1" "DELETE" "" None),
             Err (APICallError ("http://inventory" ++ "/widgets/1") (Some 404)
                    (Some text) (Errorf_v "Received non-success code: %v" 404))).
Proof.
  assert (Hstatus : 300 < 404) by lia.
  assert (Hreceived :
    received (Scenario.service 404 "gone")
      (fst (DoDelete Scenario.url_Parse (Scenario.service 404 "gone")
              Scenario.context "/widgets/1" "" None))
    = Some (http.mkResponse 404 (mkBody "gone" None))) by (vm_compute; reflexivity).
  split; [by split |].
  exact (proj2 (proj2 (proj2
    (operations_failure Scenario.url_Parse (Scenario.service 404 "gone")
       Scenario.context "/widgets/1" "" None
       (http.mkResponse 404 (mkBody "gone" None)) Hstatus))) Hreceived).
Defined.

